(** * The versioned cluster-state engine of the SUSS viewer

    A shallow embedding of [SussViewer] (src/suss/gui/app.py) and of the
    highlight handler of [TimeseriesPlot] (src/suss/gui/timeseries.py).

    The viewer is a Python object whose methods mutate it, emit Qt signals,
    open message boxes and may raise.  It is embedded as a record of its
    fields together with three logs (signals emitted, dialogs shown, lines
    printed), and every method is a computation in a small state-and-
    exception monad over that record. *)

From stdpp Require Import gmap strings list.
From Stdlib Require Import ZArith.

Open Scope Z_scope.

(** ** Python exceptions and outcomes of a call *)

Inductive exn : Type :=
  | IndexError
  | KeyError
  | TypeError
  | AttributeError (name : string).

(** A call either returns a value or raises; both leave a state behind. *)
Inductive outcome (S A : Type) : Type :=
  | Ok (a : A) (s : S)
  | Raise (e : exn) (s : S).
Arguments Ok {S A} a s.
Arguments Raise {S A} e s.

Definition final {S A} (o : outcome S A) : S :=
  match o with Ok _ s => s | Raise _ s => s end.

Definition returned {S A} (o : outcome S A) : bool :=
  match o with Ok _ _ => true | Raise _ _ => false end.

(** ** Strings *)

(** Python's [needle in hay] on [str]. *)
Fixpoint str_contains (needle hay : string) : bool :=
  String.prefix needle hay ||
  match hay with
  | EmptyString => false
  | String _ hay' => str_contains needle hay'
  end.

(** ** Lists used as Python lists *)

(** [l.pop()]: the list without its last element, and that element. *)
Fixpoint list_pop {A} (l : list A) : option (list A * A) :=
  match l with
  | [] => None
  | [x] => Some ([], x)
  | x :: l' =>
      match list_pop l' with
      | Some (r, y) => Some (x :: r, y)
      | None => None
      end
  end.

(** ** The dataset, an external collaborator

    [suss.core.ClusterDataset] is not part of the sources at hand; the viewer
    only uses the members below, which are therefore an interface. *)
Class ClusterDataset (D : Type) : Type := {
  labels : D → list Z;
  merge_nodes : D → gset Z → D;
  delete_node : D → Z → D;
  len : D → nat
}.

Section Viewer.

Context {D : Type} `{ClusterDataset D}.
(** [suss.gui.utils.make_color_map], also external: a dict from label to
    colour. *)
Context {Color : Type} (make_color_map : list Z → gmap Z Color).

(** Modelled from the spec: [suss.gui.utils.get_changed_labels] is imported
    by app.py but its body is not part of the sources at hand.  Section 4.2
    defines it as the symmetric difference of the two label sets: the labels
    present in exactly one of the two snapshots. *)
Definition get_changed_labels (a b : D) : gset Z :=
  let la : gset Z := list_to_set (labels a) in
  let lb : gset Z := list_to_set (labels b) in
  (la ∖ lb) ∪ (lb ∖ la).

(** ** Signals *)

Inductive Signal : Type :=
  | UPDATED_CLUSTERS (new old : D)
  | CLUSTER_SELECT (new old : gset Z)
  | CLUSTER_HIGHLIGHT (new old : option Z).

Definition is_CLUSTER_SELECT (s : Signal) : bool :=
  match s with CLUSTER_SELECT _ _ => true | _ => false end.

(** ** The viewer object *)

Record SussViewer : Type := mkViewer {
  stack : list (string * D);
  selected : gset Z;
  highlighted : option Z;
  colors : gmap Z Color;
  (** entries of the History menu: action text, [len(dataset)], dataset *)
  history_menu : list (string * nat * D);
  (** whether [animation_timer] is running *)
  timer_active : bool;
  (** signals emitted so far, oldest first *)
  emitted : list Signal;
  (** [QMessageBox.warning] calls so far: title and text *)
  dialogs : list (string * string);
  (** lines printed so far *)
  printed : list string
}.

Definition M (A : Type) : Type := SussViewer → outcome SussViewer A.

Definition ret {A} (a : A) : M A := λ v, Ok a v.
Definition bind {A B} (k : A → M B) (m : M A) : M B :=
  λ v, match m v with
       | Ok a v' => k a v'
       | Raise e v' => Raise e v'
       end.
Definition raise {A} (e : exn) : M A := λ v, Raise e v.
Definition get : M SussViewer := λ v, Ok v v.
Definition modify (f : SussViewer → SussViewer) : M unit := λ v, Ok () (f v).

(** stdpp's [x ← m; k] and [m ;; k] notations are used for sequencing. *)
#[local] Instance M_ret : MRet M := @ret.
#[local] Instance M_bind : MBind M := @bind.

(** Field assignments. *)
Definition set_stack (s : list (string * D)) (v : SussViewer) : SussViewer :=
  mkViewer s (selected v) (highlighted v) (colors v) (history_menu v)
           (timer_active v) (emitted v) (dialogs v) (printed v).
Definition set_selected_field (s : gset Z) (v : SussViewer) : SussViewer :=
  mkViewer (stack v) s (highlighted v) (colors v) (history_menu v)
           (timer_active v) (emitted v) (dialogs v) (printed v).
Definition set_highlighted_field (h : option Z) (v : SussViewer) : SussViewer :=
  mkViewer (stack v) (selected v) h (colors v) (history_menu v)
           (timer_active v) (emitted v) (dialogs v) (printed v).
Definition set_colors (c : gmap Z Color) (v : SussViewer) : SussViewer :=
  mkViewer (stack v) (selected v) (highlighted v) c (history_menu v)
           (timer_active v) (emitted v) (dialogs v) (printed v).
Definition set_history_menu (m : list (string * nat * D)) (v : SussViewer)
  : SussViewer :=
  mkViewer (stack v) (selected v) (highlighted v) (colors v) m
           (timer_active v) (emitted v) (dialogs v) (printed v).
Definition set_timer (b : bool) (v : SussViewer) : SussViewer :=
  mkViewer (stack v) (selected v) (highlighted v) (colors v) (history_menu v)
           b (emitted v) (dialogs v) (printed v).
Definition log_signal (s : Signal) (v : SussViewer) : SussViewer :=
  mkViewer (stack v) (selected v) (highlighted v) (colors v) (history_menu v)
           (timer_active v) (emitted v ++ [s]) (dialogs v) (printed v).
Definition log_dialog (title text : string) (v : SussViewer) : SussViewer :=
  mkViewer (stack v) (selected v) (highlighted v) (colors v) (history_menu v)
           (timer_active v) (emitted v) (dialogs v ++ [(title, text)])
           (printed v).
Definition log_print (line : string) (v : SussViewer) : SussViewer :=
  mkViewer (stack v) (selected v) (highlighted v) (colors v) (history_menu v)
           (timer_active v) (emitted v) (dialogs v) (printed v ++ [line]).

(** [widgets.QMessageBox.warning(self, title, text)] *)
Definition warning (title text : string) : M unit := modify (log_dialog title text).
Definition print (line : string) : M unit := modify (log_print line).

(** The [dataset] property: [self.stack[-1][1]]. *)
Definition dataset : M D :=
  λ v, match last (stack v) with
       | Some (_, d) => Ok d v
       | None => Raise IndexError v
       end.

(** The [last_action] property: [self.stack[-1][0]]. *)
Definition last_action : M string :=
  λ v, match last (stack v) with
       | Some (a, _) => Ok a v
       | None => Raise IndexError v
       end.

(** [update_menu_bar]: the menu is rebuilt from the stack, newest first. *)
Definition update_menu_bar : M unit :=
  v ← get;
  modify (set_history_menu ((λ e, (e.1, len e.2, e.2)) <$> reverse (stack v))).

(** [on_dataset_changed], the viewer's own slot for [UPDATED_CLUSTERS]. *)
Definition on_dataset_changed : M unit :=
  d ← dataset;
  modify (set_colors (make_color_map (labels d))) ;;
  update_menu_bar.

(** Emitting a signal records it.  [UPDATED_CLUSTERS] is connected to
    [on_dataset_changed] in [__init__], so that slot runs during the emit. *)
Definition emit_UPDATED_CLUSTERS (new old : D) : M unit :=
  modify (log_signal (UPDATED_CLUSTERS new old)) ;;
  on_dataset_changed.
Definition emit_CLUSTER_SELECT (new old : gset Z) : M unit :=
  modify (log_signal (CLUSTER_SELECT new old)).
Definition emit_CLUSTER_HIGHLIGHT (new old : option Z) : M unit :=
  modify (log_signal (CLUSTER_HIGHLIGHT new old)).

(** [timer_paused]: a generator-based context manager with no [try]; when
    the body raises, the statement after [yield] is not executed. *)
Definition timer_paused {A} (body : M A) : M A :=
  modify (set_timer false) ;;
  x ← body;
  modify (set_timer true) ;;
  ret x.

(** ** Selection and highlight *)

Definition set_highlight (label : option Z) : M unit :=
  v ← get;
  let _old_label := highlighted v in
  modify (set_highlighted_field label) ;;
  emit_CLUSTER_HIGHLIGHT label _old_label.

Definition set_selected (sel : gset Z) : M unit :=
  v ← get;
  let _old_selected := selected v in
  if bool_decide (sel ≠ selected v) then
    modify (set_selected_field sel) ;;
    emit_CLUSTER_SELECT sel _old_selected
  else ret ().

Definition toggle_selected (label : Z) (sel : bool) : M unit :=
  v ← get;
  let _old_selected := selected v in
  if sel && bool_decide (label ∉ selected v) then
    modify (set_selected_field (selected v ∪ {[label]})) ;;
    emit_CLUSTER_SELECT (selected v ∪ {[label]}) _old_selected
  else if negb sel && bool_decide (label ∈ selected v) then
    modify (set_selected_field (selected v ∖ {[label]})) ;;
    emit_CLUSTER_SELECT (selected v ∖ {[label]}) _old_selected
  else ret ().

(** ** The history stack *)

Definition _enstack (action : string) (d : D) : M unit :=
  timer_paused (
    _old_dataset ← dataset;
    modify (λ v, set_stack (stack v ++ [(action, d)]) v) ;;
    cur ← dataset;
    modify (set_colors (make_color_map (labels cur))) ;;
    cur ← dataset;
    emit_UPDATED_CLUSTERS cur _old_dataset).

Definition _undo : M unit :=
  v ← get;
  if bool_decide (length (stack v) = 1%nat) then
    print "Nothing left to undo."
  else
    timer_paused (
      match list_pop (stack v) with
      | None => raise IndexError
      | Some (rest, (last_action, _old_dataset)) =>
          modify (set_stack rest) ;;
          _new_dataset ← dataset;
          cur ← dataset;
          let new_labels : gset Z := list_to_set (labels cur) in
          cur ← dataset;
          let changed_labels := get_changed_labels cur _old_dataset in
          let _old_selected := selected v in
          (if str_contains "delete unselected" last_action then
             modify (set_selected_field (list_to_set (labels _old_dataset)))
           else
             modify (set_selected_field (new_labels ∩ changed_labels))) ;;
          cur ← dataset;
          modify (set_colors (make_color_map (labels cur))) ;;
          cur ← dataset;
          emit_UPDATED_CLUSTERS cur _old_dataset ;;
          v' ← get;
          emit_CLUSTER_SELECT (selected v') _old_selected
      end).

Definition restore (d : D) : M unit :=
  _enstack "restored previous state" d.

(** The names [SussViewer] defines: its signals, the attributes assigned in
    [__init__], [init_actions] and [on_dataset_changed], its properties and
    its methods.  (The Qt base class [QFrame] contributes widget members
    only.) *)
Definition viewer_attributes : list string :=
  [ "UPDATED_CLUSTERS"; "CLUSTER_SELECT"; "CLUSTER_HIGHLIGHT";
    "stack"; "selected"; "highlighted"; "animation_timer";
    "edit_menu"; "history_menu"; "colors";
    "undo_action"; "merge_action"; "delete_action"; "clear_action";
    "delete_others_action"; "select_all_action";
    "__init__"; "closeEvent"; "update_menu_bar"; "init_actions";
    "dataset"; "last_action"; "set_highlight"; "set_selected";
    "toggle_selected"; "on_dataset_changed"; "timer_paused";
    "setup_shortcuts"; "_enstack"; "_undo"; "restore"; "reset";
    "select_all"; "merge"; "_delete"; "delete"; "delete_unselected";
    "save"; "load"; "clear"; "init_ui" ].

(** [self.<name>] for a name whose value is not needed afterwards: Python
    raises [AttributeError] when the object has no such attribute. *)
Definition getattr (name : string) : M unit :=
  if bool_decide (name ∈ viewer_attributes) then ret ()
  else raise (AttributeError name).

Definition reset : M unit :=
  timer_paused (
    _old_dataset ← dataset;
    modify (λ v, set_stack (take 1 (stack v)) v) ;;
    cur ← dataset;
    modify (set_colors (make_color_map (labels cur))) ;;
    cur ← dataset;
    emit_UPDATED_CLUSTERS cur _old_dataset ;;
    getattr "dataset_updated").

(** ** Commands on the selection *)

Definition select_all : M unit :=
  v ← get;
  let _old_selected := selected v in
  d ← dataset;
  (if bool_decide (selected v = list_to_set (labels d)) then
     modify (set_selected_field ∅)
   else
     d ← dataset;
     modify (set_selected_field (list_to_set (labels d)))) ;;
  v' ← get;
  emit_CLUSTER_SELECT (selected v') _old_selected.

Definition merge : M unit :=
  v ← get;
  if bool_decide (size (selected v) < 2)%nat then
    warning "Merge failed" "Not enough clusters selected to merge"
  else
    d ← dataset;
    let old_labels : gset Z := list_to_set (labels d) in
    d ← dataset;
    let _new_dataset := merge_nodes d (selected v) in
    let new_labels : gset Z := list_to_set (labels _new_dataset) in
    d ← dataset;
    let changed_labels := get_changed_labels _new_dataset d in
    let _old_selected := selected v in
    modify (set_selected_field (new_labels ∩ changed_labels)) ;;
    modify (set_colors (make_color_map (labels _new_dataset))) ;;
    _enstack "merge" _new_dataset ;;
    v' ← get;
    emit_CLUSTER_SELECT (selected v') _old_selected.

(** [for label in to_delete]: a Python set is visited in an order the
    language leaves open; [elements] fixes one. *)
Definition _delete (to_delete : gset Z) (action : string) : M unit :=
  if bool_decide (size to_delete = 0%nat) then
    warning "Delete failed" "No clusters selected for deletion"
  else
    d ← dataset;
    let _new_dataset := foldl delete_node d (elements to_delete) in
    let plural := if bool_decide (1 < size to_delete)%nat then "s" else "" in
    _enstack ((action +:+ " node") +:+ plural) _new_dataset.

Definition delete : M unit :=
  v ← get;
  _delete (selected v) "delete" ;;
  modify (set_selected_field ∅).

Definition delete_unselected : M unit :=
  d ← dataset;
  let labels_ : gset Z := list_to_set (labels d) in
  v ← get;
  let to_delete := labels_ ∖ selected v in
  let _old_selected := selected v in
  modify (set_selected_field ∅) ;;
  _delete to_delete "delete unselected" ;;
  v' ← get;
  emit_CLUSTER_SELECT (selected v') _old_selected.

Definition clear : M unit :=
  v ← get;
  let _old_selected := selected v in
  modify (set_selected_field ∅) ;;
  v' ← get;
  emit_CLUSTER_SELECT (selected v') _old_selected ;;
  v' ← get;
  emit_CLUSTER_HIGHLIGHT None (highlighted v').

(** ** Command sequences

    Two sequences of calls that the properties below speak about. *)

(** A push immediately followed by an undo. *)
Definition push_then_undo (action : string) (d : D) : M unit :=
  _enstack action d ;;
  _undo.

(** [select_all] invoked twice in a row. *)
Definition select_all_twice : M unit :=
  select_all ;;
  select_all.

(** ** The selection policy in the words of the specification

    Section 4.3 describes one policy, [on_dataset_edit(old_dataset,
    new_dataset, edit_kind)], for every structural edit: with
    [changed = changed_labels(old_dataset, new_dataset)] and
    [surviving = new_dataset.labels], the new selection is [surviving] for a
    delete-unselected edit and [intersection(surviving, changed)] otherwise.
    This definition follows those words; it is what the methods above are
    compared with. *)
Inductive edit_kind : Type :=
  | EditMerge
  | EditDelete
  | EditDeleteUnselected
  | EditUndo.

Definition spec_on_dataset_edit (old_dataset new_dataset : D) (k : edit_kind)
  : gset Z :=
  let changed := get_changed_labels old_dataset new_dataset in
  let surviving : gset Z := list_to_set (labels new_dataset) in
  match k with
  | EditDeleteUnselected => surviving
  | _ => surviving ∩ changed
  end.

(** ** Delivery of [CLUSTER_HIGHLIGHT] to the timeseries view *)

(** The values a signal carries, in the order of its declaration
    [pyqtSignal(object, object)]; only their number and, for the highlight
    channel, the labels matter below. *)
Inductive pyval : Type :=
  | PyNone
  | PyInt (z : Z)
  | PySet (s : gset Z)
  | PyDataset (d : D).

Definition py_label (l : option Z) : pyval :=
  match l with Some z => PyInt z | None => PyNone end.

Definition signal_args (s : Signal) : list pyval :=
  match s with
  | UPDATED_CLUSTERS new old => [PyDataset new; PyDataset old]
  | CLUSTER_SELECT new old => [PySet new; PySet old]
  | CLUSTER_HIGHLIGHT new old => [py_label new; py_label old]
  end.

(** A bound method used as a slot: the number of positional parameters after
    [self] (none of them has a default) and its body. *)
Record PySlot (S : Type) : Type := mkSlot {
  positional : nat;
  body : list pyval → S → outcome S unit
}.
Arguments positional {S} _.
Arguments body {S} _ _ _.

(** Calling [f] on a tuple of arguments: binding fails with [TypeError] unless every positional
    parameter receives exactly one argument. *)
Definition py_call {S} (f : PySlot S) (args : list pyval) (s : S)
  : outcome S unit :=
  if bool_decide (length args = positional f) then body f args s
  else Raise TypeError s.

(** PyQt invokes a slot with the signal's arguments and, while binding them
    fails, retries with one trailing argument fewer; when no arity fits, the
    [TypeError] stands. *)
Fixpoint pyqt_invoke {S} (f : PySlot S) (n : nat) (args : list pyval) (s : S)
  : outcome S unit :=
  if bool_decide (length (take n args) = positional f) then
    py_call f (take n args) s
  else
    match n with
    | O => Raise TypeError s
    | Datatypes.S n' => pyqt_invoke f n' args s
    end.

Definition deliver {S} (f : PySlot S) (sig : Signal) (s : S) : outcome S unit :=
  pyqt_invoke f (length (signal_args sig)) (signal_args sig) s.

(** A scatter artist of the timeseries view. *)
Inductive Paint : Type :=
  | White
  | Mapped (c : Color).

Record Scatter : Type := mkScatter {
  facecolor : Paint;
  edgecolor : Paint;
  visible : bool
}.

Definition set_color (c : Paint) (sc : Scatter) : Scatter :=
  mkScatter c c (visible sc).
Definition set_facecolor (c : Paint) (sc : Scatter) : Scatter :=
  mkScatter c (edgecolor sc) (visible sc).
Definition set_edgecolor (c : Paint) (sc : Scatter) : Scatter :=
  mkScatter (facecolor sc) c (visible sc).
Definition set_visible (b : bool) (sc : Scatter) : Scatter :=
  mkScatter (facecolor sc) (edgecolor sc) b.

(** The part of [TimeseriesPlot] its highlight handler touches:
    [self.scatters], a [defaultdict(list)]. *)
Record TimeseriesPlot : Type := mkPlot {
  scatters : gmap Z (list Scatter)
}.

(** The body of [TimeseriesPlot.on_cluster_highlight]; [v] is the parent
    viewer, read through the [colors] and [selected] properties. *)
Definition on_cluster_highlight_body (v : SussViewer)
    (new_highlight old_highlight : pyval) (p : TimeseriesPlot)
  : outcome TimeseriesPlot unit :=
  let p1 :=
    match old_highlight with
    | PyInt o =>
        match scatters p !! o, colors v !! o with
        | Some scs, Some c =>
            mkPlot (<[o := (λ sc, set_visible (bool_decide (o ∈ selected v))
                                   (set_color (Mapped c) sc)) <$> scs]>
                      (scatters p))
        | _, _ => p
        end
    | _ => p
    end in
  match new_highlight with
  | PyInt n =>
      (* indexing a defaultdict creates the missing entry *)
      let scs := default [] (scatters p1 !! n) in
      match scs, colors v !! n with
      | [], _ => Ok () (mkPlot (<[n := []]> (scatters p1)))
      | sc :: rest, None =>
          Raise KeyError
                (mkPlot (<[n := set_facecolor White sc :: rest]> (scatters p1)))
      | _, Some c =>
          Ok () (mkPlot (<[n := (λ sc, set_visible true
                                         (set_edgecolor (Mapped c)
                                            (set_facecolor White sc))) <$> scs]>
                           (scatters p1)))
      end
  | _ => Ok () p1
  end.

(** [def on_cluster_highlight(self, new_highlight, old_highlight, temporary)] *)
Definition on_cluster_highlight (v : SussViewer) : PySlot TimeseriesPlot :=
  mkSlot TimeseriesPlot 3%nat
    (λ args p,
       match args with
       | [new_highlight; old_highlight; temporary] =>
           on_cluster_highlight_body v new_highlight old_highlight p
       | _ => Raise TypeError p
       end).

(** [def on_cluster_select(self, selected, old_selected)]: every scatter of
    every label is shown exactly when its label is selected.  The signal is
    declared [pyqtSignal(set, set)], so both values are sets. *)
Definition on_cluster_select_body (sel : gset Z) (p : TimeseriesPlot)
  : TimeseriesPlot :=
  mkPlot (map_imap
            (λ (label : Z) (scs : list Scatter),
               Some (fmap (M := list)
                       (set_visible (bool_decide (label ∈ sel))) scs))
            (scatters p)).

Definition on_cluster_select : PySlot TimeseriesPlot :=
  mkSlot TimeseriesPlot 2%nat
    (λ args p,
       match args with
       | [PySet sel; PySet old_selected] => Ok () (on_cluster_select_body sel p)
       | _ => Raise TypeError p
       end).

(** ** Construction and the wiring of the actions *)

Definition is_CLUSTER_HIGHLIGHT (s : Signal) : bool :=
  match s with CLUSTER_HIGHLIGHT _ _ => true | _ => false end.

(** The menu [update_menu_bar] builds for a stack. *)
Definition menu_of (st : list (string * D)) : list (string * nat * D) :=
  (λ e, (e.1, len e.2, e.2)) <$> reverse st.

(** [SussViewer.__init__]: the state it leaves behind.  [init_ui] calls
    [on_dataset_changed] directly, which computes the colours and fills the
    history menu; no signal has been emitted yet. *)
Definition __init__ (d : D) : SussViewer :=
  final (on_dataset_changed
           (mkViewer [("load", d)] ∅ None ∅ [] true [] [] [])).

(** The actions [init_actions] creates, and the history entries
    [update_menu_bar] creates ([history_action n] is the n-th entry of the
    History menu, counted from the top). *)
Inductive Action : Type :=
  | undo_action
  | merge_action
  | delete_action
  | clear_action
  | delete_others_action
  | select_all_action
  | history_action (n : nat).

(** What [triggered] is connected to, in [init_actions] and
    [update_menu_bar]. *)
Definition trigger (a : Action) : M unit :=
  match a with
  | undo_action => _undo
  | merge_action => merge
  | delete_action => delete
  | delete_others_action => delete_unselected
  | clear_action => clear
  | select_all_action => select_all
  | history_action n =>
      v ← get;
      match history_menu v !! n with
      | Some (_, _, d) => restore d
      | None => ret ()
      end
  end.

(** What can happen to a viewer: the user triggers an action, or a view
    calls one of the three public setters. *)
Inductive Event : Type :=
  | Triggered (a : Action)
  | HighlightCall (label : option Z)
  | SelectCall (sel : gset Z)
  | ToggleCall (label : Z) (on : bool).

Definition handle (e : Event) : M unit :=
  match e with
  | Triggered a => trigger a
  | HighlightCall label => set_highlight label
  | SelectCall sel => set_selected sel
  | ToggleCall label on => toggle_selected label on
  end.

Fixpoint run_events (es : list Event) : M unit :=
  match es with
  | [] => ret ()
  | e :: es' => handle e ;; run_events es'
  end.

(** [k] undo requests in a row. *)
Fixpoint undo_times (k : nat) : M unit :=
  match k with
  | O => ret ()
  | Datatypes.S k' => _undo ;; undo_times k'
  end.

(** The state [__init__] establishes and every event keeps: the stack starts
    with the load entry of [root], the history menu mirrors the stack, the
    colours are those of the current dataset and the animation timer runs. *)
Definition consistent (root : D) (v : SussViewer) : Prop :=
  (∃ rest, stack v = ("load", root) :: rest) ∧
  history_menu v = menu_of (stack v) ∧
  (∃ a d, last (stack v) = Some (a, d) ∧
          colors v = make_color_map (labels d)) ∧
  timer_active v = true.

End Viewer.

Arguments positional {D S} _.
Arguments body {D S} _ _ _.

(** ** A concrete dataset for examples

    Modelled from the spec: [suss.core.ClusterDataset] is not part of the
    sources at hand.  Following sections 3 and 6 and the scenarios of
    section 8, a snapshot is its sequence of labels; [delete_node] removes one
    label, [merge_nodes] removes the merged labels and adds one fresh label
    (one more than the largest label so far), and every transform returns a
    new value. *)
Record FlatDataset : Type := mkFlat { flat_labels : list Z }.

Definition flat_fresh (d : FlatDataset) : Z :=
  foldr Z.max 0 (flat_labels d) + 1.

#[global] Instance flat_dataset : ClusterDataset FlatDataset := {|
  labels := flat_labels;
  merge_nodes d sel :=
    mkFlat (filter (λ l, l ∉ sel) (flat_labels d) ++ [flat_fresh d]);
  delete_node d l := mkFlat (filter (λ l', l' ≠ l) (flat_labels d));
  len d := length (flat_labels d)
|}.

(** A colour map for examples: every label is its own colour. *)
Definition label_colors (ls : list Z) : gmap Z Z :=
  list_to_map ((λ l, (l, l)) <$> ls).

(** A freshly constructed viewer, as [__init__] leaves it. *)
Definition init_viewer (d : FlatDataset) : SussViewer (D := FlatDataset) (Color := Z) :=
  mkViewer [("load", d)] ∅ None (label_colors (labels d))
           [("load", len d, d)] true [] [] [].

Definition d123 : FlatDataset := mkFlat [1; 2; 3].

(** The viewer on labels 1, 2, 3 after the user selected [sel] and
    highlighted [hi]. *)
Definition viewer123 (sel : gset Z) (hi : option Z) : SussViewer :=
  set_highlighted_field hi (set_selected_field sel (init_viewer d123)).

(** Labels 1 and 2 selected, nothing highlighted. *)
Definition viewer_sel12 : SussViewer := viewer123 {[1; 2]} None.

(** The same viewer after a merge of 1 and 2 into the new label 4 was
    pushed. *)
Definition viewer_merged : SussViewer :=
  set_stack [("load", d123); ("merge", mkFlat [3; 4])] (init_viewer d123).

(** A timeseries view with one scatter artist per label of [d123]. *)
Definition plot123 : TimeseriesPlot (Color := Z) :=
  mkPlot (list_to_map
            ((λ l, (l, [mkScatter (Mapped l) (Mapped l) false])) <$> labels d123)).

(** ** The detail level of the timeseries view *)

(** [TimeseriesPlot.detail_level_scatter_size], a dict whose keys are 2, 1
    and [None]. *)
Definition detail_level_scatter_size : list (option Z * Z) :=
  [(Some 2, 4); (Some 1, 3); (None, 2)].

(** The items [setup_detail_level_selector] adds to the combo box: text and
    user data. *)
Definition detail_level_items : list (string * option Z) :=
  [("Normal Detail", Some 1); ("High Detail", Some 2); ("All Waveforms", None)].

(** [QComboBox.itemData(index)]: the user data of the item, [None] when there
    is no item at [index]. *)
Definition itemData (index : Z) : option Z :=
  if bool_decide (0 ≤ index) then
    match detail_level_items !! Z.to_nat index with
    | Some (_, data) => data
    | None => None
    end
  else None.

(** [set_detail_level]: the new value of [self.flatten_level]. *)
Definition set_detail_level (index : Z) : option Z := itemData index.

(** [setup_detail_level_selector]: the flatten level and the current index of
    the combo box, from [dataset.count] and [len(dataset.flatten(1))]. *)
Definition setup_detail_level_selector (count len_flatten_1 : Z)
  : option Z * Z :=
  if bool_decide (count ≤ 30000) then (set_detail_level 2, 2)
  else if bool_decide (len_flatten_1 ≤ 500) then (set_detail_level 1, 1)
  else (set_detail_level 0, 0).

(** [self.detail_level_scatter_size[self.flatten_level]] in [setup_data]:
    [None] stands for [KeyError]. *)
Definition scatter_size (flatten_level : option Z) : option Z :=
  match list_find (λ kv, kv.1 = flatten_level) detail_level_scatter_size with
  | Some (_, (_, size)) => Some size
  | None => None
  end.

(** ** Subsampling in [setup_data] *)

Definition max_points : nat := Z.to_nat 10000.

(** [skip = max(1, len(self.flattened) // self.max_points)] *)
Definition subsample_skip (n : nat) : nat := Nat.max 1 (n / max_points).

(** The positions [slice(None, None, skip)] selects in a sequence of length
    [n]: 0, skip, 2 skip, ... below [n]. *)
Definition slice_indices (n skip : nat) : list nat :=
  filter (λ i, i mod skip = 0)%nat (seq 0 n).

(** * Properties *)

Section ViewerFacts.

Context {D : Type} `{ClusterDataset D}.
Context {Color : Type} (make_color_map : list Z → gmap Z Color).

Implicit Types (v parent : SussViewer (D := D) (Color := Color)) (d : D).
Implicit Types (plot : TimeseriesPlot (Color := Color)).

Ltac run :=
  repeat (progress
    (unfold mbind, M_bind, bind, mret, M_ret, ret, get, modify, raise,
            warning, print, emit_CLUSTER_SELECT, emit_CLUSTER_HIGHLIGHT;
     cbn beta iota;
     cbn [stack selected highlighted colors history_menu
          timer_active emitted dialogs printed
          set_stack set_selected_field set_highlighted_field
          set_colors set_history_menu set_timer
          log_signal log_dialog log_print])).

Lemma dataset_top v a d :
  last (stack v) = Some (a, d) → dataset v = Ok d v.
Proof. intros Hl. unfold dataset. by rewrite Hl. Qed.

Lemma clear_run v :
  clear v =
  Ok () (log_signal (CLUSTER_HIGHLIGHT None (highlighted v))
           (log_signal (CLUSTER_SELECT ∅ (selected v))
              (set_selected_field ∅ v))).
Proof. reflexivity. Qed.

(** ** Setting the selection *)

Lemma set_selected_same v : set_selected (selected v) v = Ok () v.
Proof.
  unfold set_selected. run. by rewrite bool_decide_eq_false_2 by (by intros []).
Qed.

Lemma set_selected_changed v (sel : gset Z) :
  sel ≠ selected v →
  set_selected sel v =
  Ok () (log_signal (CLUSTER_SELECT sel (selected v)) (set_selected_field sel v)).
Proof.
  intros Hne. unfold set_selected. run. by rewrite bool_decide_eq_true_2.
Qed.

(** Selecting a label that is already selected is silent. *)
Lemma toggle_selected_present v (label : Z) :
  label ∈ selected v → toggle_selected label true v = Ok () v.
Proof.
  intros Hin. unfold toggle_selected. run.
  rewrite bool_decide_eq_false_2 by (by intros []).
  by cbn.
Qed.

Lemma toggle_selected_absent v (label : Z) :
  label ∉ selected v →
  toggle_selected label true v =
  Ok () (log_signal (CLUSTER_SELECT (selected v ∪ {[label]}) (selected v))
           (set_selected_field (selected v ∪ {[label]}) v)).
Proof.
  intros Hnin. unfold toggle_selected. run. by rewrite bool_decide_eq_true_2.
Qed.

Lemma set_highlight_run v (label : option Z) :
  set_highlight label v =
  Ok () (log_signal (CLUSTER_HIGHLIGHT label (highlighted v))
           (set_highlighted_field label v)).
Proof. reflexivity. Qed.

(** ** Pushing and undoing *)

Lemma emit_UPDATED_CLUSTERS_run v a d new old :
  last (stack v) = Some (a, d) →
  emit_UPDATED_CLUSTERS make_color_map new old v =
  Ok () (set_history_menu ((λ e, (e.1, len e.2, e.2)) <$> reverse (stack v))
           (set_colors (make_color_map (labels d))
              (log_signal (UPDATED_CLUSTERS new old) v))).
Proof.
  intros Hl. unfold emit_UPDATED_CLUSTERS, on_dataset_changed, update_menu_bar.
  run. unfold dataset. run. by rewrite Hl.
Qed.

(** What a push does, field by field. *)
Lemma _enstack_run v a0 d0 action d :
  last (stack v) = Some (a0, d0) →
  ∃ v', _enstack make_color_map action d v = Ok () v' ∧
        stack v' = stack v ++ [(action, d)] ∧
        selected v' = selected v ∧
        highlighted v' = highlighted v ∧
        colors v' = make_color_map (labels d) ∧
        timer_active v' = true ∧
        emitted v' = emitted v ++ [UPDATED_CLUSTERS d d0] ∧
        dialogs v' = dialogs v ∧
        printed v' = printed v.
Proof.
  intros Hl. eexists. split.
  - unfold _enstack, timer_paused. run.
    rewrite (dataset_top _ a0 d0) by exact Hl. run.
    rewrite (dataset_top _ action d) by (run; apply last_snoc). run.
    rewrite (dataset_top _ action d) by (run; apply last_snoc). run.
    rewrite (emit_UPDATED_CLUSTERS_run _ action d) by (run; apply last_snoc).
    run. reflexivity.
  - by run.
Qed.

Lemma list_pop_snoc {A} (l : list A) (x : A) : list_pop (l ++ [x]) = Some (l, x).
Proof.
  induction l as [|y l IH]; [done|].
  cbn [app list_pop]. rewrite IH. by destruct l.
Qed.

Lemma last_snoc2 {A} (l : list A) (x y : A) : last (l ++ [x; y]) = Some y.
Proof.
  replace (l ++ [x; y]) with ((l ++ [x]) ++ [y])
    by (by rewrite <- (assoc_L (++))).
  apply last_snoc.
Qed.

Lemma last_length_ge_1 {A} (l : list A) (x : A) : last l = Some x → (1 ≤ length l)%nat.
Proof. destruct l; [done|]. cbn. lia. Qed.

(** What an undo does when there is something to undo, field by field. *)
Lemma _undo_run v rest action popped a0 d0 :
  stack v = rest ++ [(action, popped)] →
  last rest = Some (a0, d0) →
  ∃ v', _undo make_color_map v = Ok () v' ∧
        stack v' = rest ∧
        selected v' =
          (if str_contains "delete unselected" action
           then list_to_set (labels popped)
           else list_to_set (labels d0) ∩ get_changed_labels d0 popped) ∧
        highlighted v' = highlighted v ∧
        timer_active v' = true ∧
        emitted v' = emitted v ++ [UPDATED_CLUSTERS d0 popped;
                                   CLUSTER_SELECT (selected v') (selected v)] ∧
        dialogs v' = dialogs v ∧
        printed v' = printed v.
Proof.
  intros Hs Hl. apply last_length_ge_1 in Hl as Hlen.
  destruct (str_contains "delete unselected" action) eqn:Hc.
  all: eexists; split;
    [ unfold _undo, timer_paused; run;
      rewrite bool_decide_eq_false_2
        by (rewrite Hs, length_app; cbn [length]; lia);
      run; rewrite Hs, list_pop_snoc; run;
      do 3 (rewrite (dataset_top _ a0 d0) by exact Hl; run);
      rewrite Hc; run;
      do 2 (rewrite (dataset_top _ a0 d0) by exact Hl; run);
      rewrite (emit_UPDATED_CLUSTERS_run _ a0 d0) by exact Hl; run;
      reflexivity
    | run; by rewrite <- (assoc_L (++)) ].
Qed.

(** An undo with nothing to undo only prints. *)
Lemma _undo_nothing v :
  length (stack v) = 1%nat →
  _undo make_color_map v = Ok () (log_print "Nothing left to undo." v).
Proof.
  intros Hlen. unfold _undo. run. by rewrite bool_decide_eq_true_2.
Qed.

(** ** Deleting *)

Lemma _delete_rejected v (to_delete : gset Z) action :
  to_delete = ∅ →
  _delete make_color_map to_delete action v =
  Ok () (log_dialog "Delete failed" "No clusters selected for deletion" v).
Proof. intros ->. unfold _delete. by rewrite size_empty. Qed.

Lemma _delete_run v a0 d0 (to_delete : gset Z) action :
  last (stack v) = Some (a0, d0) →
  to_delete ≠ ∅ →
  ∃ v' name,
    _delete make_color_map to_delete action v = Ok () v' ∧
    name = (action +:+ " node") +:+
           (if bool_decide (1 < size to_delete)%nat then "s" else "") ∧
    stack v' = stack v ++ [(name, foldl delete_node d0 (elements to_delete))] ∧
    selected v' = selected v ∧
    highlighted v' = highlighted v ∧
    emitted v' = emitted v ++
      [UPDATED_CLUSTERS (foldl delete_node d0 (elements to_delete)) d0] ∧
    dialogs v' = dialogs v ∧
    printed v' = printed v.
Proof.
  intros Hl Hne.
  destruct (_enstack_run v a0 d0
              ((action +:+ " node") +:+
               (if bool_decide (1 < size to_delete)%nat then "s" else ""))
              (foldl delete_node d0 (elements to_delete)) Hl)
    as (v' & Hrun & Hst & Hsel & Hhi & _ & _ & Hem & Hdi & Hpr).
  exists v'. eexists. split; [|split; [reflexivity|done]].
  unfold _delete.
  rewrite bool_decide_eq_false_2
    by (intros Hz; apply Hne, leibniz_equiv, size_empty_iff, Hz).
  run. rewrite (dataset_top _ a0 d0) by exact Hl. run. exact Hrun.
Qed.

(** [delete] never emits [CLUSTER_SELECT]: whatever it emits is the push's
    [UPDATED_CLUSTERS]. *)
Lemma delete_emits v :
  ∃ sigs, emitted (final (delete make_color_map v)) = emitted v ++ sigs ∧
          Forall (λ s, is_CLUSTER_SELECT s = false) sigs.
Proof.
  unfold delete. run.
  destruct (decide (selected v = ∅)) as [He|Hne].
  { rewrite (_delete_rejected _ _ _ He). run. exists [].
    by rewrite app_nil_r. }
  destruct (last (stack v)) as [[a0 d0]|] eqn:Hl.
  - destruct (_delete_run v a0 d0 (selected v) "delete" Hl Hne)
      as (v' & name & Hrun & _ & _ & _ & _ & Hem & _).
    rewrite Hrun. run. eexists. split; [exact Hem|].
    by repeat constructor.
  - exists []. rewrite app_nil_r. unfold _delete.
    rewrite bool_decide_eq_false_2
      by (intros Hz; apply Hne, leibniz_equiv, size_empty_iff, Hz).
    run. unfold dataset. by rewrite Hl.
Qed.

(** A rejected [delete]: only the dialog is new. *)
Lemma delete_rejected v :
  selected v = ∅ →
  ∃ v', delete make_color_map v = Ok () v' ∧
        stack v' = stack v ∧ selected v' = selected v ∧
        highlighted v' = highlighted v ∧ emitted v' = emitted v ∧
        dialogs v' = dialogs v ++
          [("Delete failed", "No clusters selected for deletion")].
Proof.
  intros He. unfold delete. run. rewrite (_delete_rejected _ _ _ He). run.
  eexists. split; [reflexivity|]. by run.
Qed.

(** An accepted [delete_unselected]: the selection is cleared before the
    push and announced after it. *)
Lemma delete_unselected_run v a0 d0 :
  last (stack v) = Some (a0, d0) →
  list_to_set (labels d0) ∖ selected v ≠ ∅ →
  ∃ v' name,
    delete_unselected make_color_map v = Ok () v' ∧
    stack v' = stack v ++
      [(name, foldl delete_node d0
                (elements (list_to_set (labels d0) ∖ selected v)))] ∧
    selected v' = ∅ ∧
    highlighted v' = highlighted v ∧
    emitted v' = emitted v ++
      [UPDATED_CLUSTERS
         (foldl delete_node d0
            (elements (list_to_set (labels d0) ∖ selected v))) d0;
       CLUSTER_SELECT ∅ (selected v)].
Proof.
  intros Hl Hne.
  destruct (_delete_run (set_selected_field ∅ v) a0 d0
              (list_to_set (labels d0) ∖ selected v) "delete unselected"
              Hl Hne)
    as (v' & name & Hrun & _ & Hst & Hsel & Hhi & Hem & _).
  eexists. exists name. split.
  - unfold delete_unselected. run.
    rewrite (dataset_top _ a0 d0) by exact Hl. run.
    rewrite Hrun. run. reflexivity.
  - run. rewrite Hsel, Hem, <- (assoc_L (++)). by run.
Qed.

(** A rejected [delete_unselected] still clears and announces. *)
Lemma delete_unselected_rejected v a0 d0 :
  last (stack v) = Some (a0, d0) →
  list_to_set (labels d0) ∖ selected v = ∅ →
  delete_unselected make_color_map v =
  Ok () (log_signal (CLUSTER_SELECT ∅ (selected v))
           (log_dialog "Delete failed" "No clusters selected for deletion"
              (set_selected_field ∅ v))).
Proof.
  intros Hl He. unfold delete_unselected. run.
  rewrite (dataset_top _ a0 d0) by exact Hl. run.
  rewrite (_delete_rejected _ _ _ He). by run.
Qed.

(** ** Merging *)

Lemma merge_rejected v :
  (size (selected v) < 2)%nat →
  merge make_color_map v =
  Ok () (log_dialog "Merge failed" "Not enough clusters selected to merge" v).
Proof. intros Hlt. unfold merge. run. by rewrite bool_decide_eq_true_2. Qed.

Lemma merge_run v a0 d0 :
  last (stack v) = Some (a0, d0) →
  (2 ≤ size (selected v))%nat →
  ∃ v',
    merge make_color_map v = Ok () v' ∧
    stack v' = stack v ++ [("merge", merge_nodes d0 (selected v))] ∧
    selected v' =
      list_to_set (labels (merge_nodes d0 (selected v))) ∩
      get_changed_labels (merge_nodes d0 (selected v)) d0 ∧
    highlighted v' = highlighted v ∧
    emitted v' = emitted v ++
      [UPDATED_CLUSTERS (merge_nodes d0 (selected v)) d0;
       CLUSTER_SELECT (selected v') (selected v)].
Proof.
  intros Hl Hge.
  set (nd := merge_nodes d0 (selected v)).
  set (v1 := set_colors (make_color_map (labels nd))
               (set_selected_field
                  (list_to_set (labels nd) ∩ get_changed_labels nd d0) v)).
  destruct (_enstack_run v1 a0 d0 "merge" nd Hl)
    as (v' & Hrun & Hst & Hsel & Hhi & _ & _ & Hem & _).
  eexists. split.
  - unfold merge. run. rewrite bool_decide_eq_false_2 by lia. run.
    do 3 (rewrite (dataset_top _ a0 d0) by exact Hl; run).
    fold nd. fold v1. rewrite Hrun. run. reflexivity.
  - run. rewrite Hst, Hsel, Hhi, Hem, <- (assoc_L (++)). by run.
Qed.

(** ** Select all *)

Lemma select_all_run v a0 d0 :
  last (stack v) = Some (a0, d0) →
  select_all v =
  let new : gset Z :=
    if bool_decide (selected v = list_to_set (labels d0))
    then ∅ else list_to_set (labels d0) in
  Ok () (log_signal (CLUSTER_SELECT new (selected v))
           (set_selected_field new v)).
Proof.
  intros Hl. unfold select_all. run.
  rewrite (dataset_top _ a0 d0) by exact Hl. run.
  case_bool_decide; run; [done|].
  rewrite (dataset_top _ a0 d0) by exact Hl. by run.
Qed.

(** ** Reset *)

Lemma getattr_dataset_updated v :
  getattr "dataset_updated" v = Raise (AttributeError "dataset_updated") v.
Proof. reflexivity. Qed.

Lemma reset_run v a1 d1 rest a0 d0 :
  stack v = (a1, d1) :: rest →
  last (stack v) = Some (a0, d0) →
  reset make_color_map v =
  Raise (AttributeError "dataset_updated")
    (set_history_menu [(a1, len d1, d1)]
       (set_colors (make_color_map (labels d1))
          (log_signal (UPDATED_CLUSTERS d1 d0)
             (set_colors (make_color_map (labels d1))
                (set_stack [(a1, d1)] (set_timer false v)))))).
Proof.
  intros Hs Hl. unfold reset, timer_paused. run.
  rewrite (dataset_top _ a0 d0) by exact Hl. run.
  rewrite Hs. cbn [take].
  do 2 (rewrite (dataset_top _ a1 d1) by reflexivity; run).
  rewrite (emit_UPDATED_CLUSTERS_run _ a1 d1) by reflexivity. run.
  by rewrite getattr_dataset_updated.
Qed.

(** With an empty stack [reset] fails even earlier, on [self.dataset]. *)
Lemma reset_never_returns v : returned (reset make_color_map v) = false.
Proof.
  destruct (stack v) as [|[a1 d1] rest] eqn:Hs.
  - unfold reset, timer_paused. run. unfold dataset. run. by rewrite Hs.
  - destruct (last (stack v)) as [[a0 d0]|] eqn:Hl.
    + by rewrite (reset_run v a1 d1 rest a0 d0 Hs Hl).
    + rewrite Hs in Hl. by rewrite last_cons in Hl; destruct (last rest).
Qed.

(** ** Claims about the generic viewer *)

(** C5. An accepted merge (at least two labels selected) pushes the merged
    dataset, and the new selection is the intersection of the new dataset's
    label set with the symmetric difference of the old and the new label
    sets. *)
Theorem merge_selection_rule v a0 d0 :
  last (stack v) = Some (a0, d0) →
  (2 ≤ size (selected v))%nat →
  let new_dataset := merge_nodes d0 (selected v) in
  let old_labels : gset Z := list_to_set (labels d0) in
  let new_labels : gset Z := list_to_set (labels new_dataset) in
  returned (merge make_color_map v) = true ∧
  last (stack (final (merge make_color_map v))) = Some ("merge", new_dataset) ∧
  selected (final (merge make_color_map v)) =
    new_labels ∩ ((old_labels ∖ new_labels) ∪ (new_labels ∖ old_labels)).
Proof.
  intros Hl Hge nd ol nl.
  destruct (merge_run v a0 d0 Hl Hge) as (v' & Hrun & Hst & Hsel & _).
  rewrite Hrun. cbn [returned final]. split; [done|]. split.
  - rewrite Hst. apply last_snoc.
  - rewrite Hsel. unfold get_changed_labels. fold nd ol nl. cbn zeta.
    f_equal. apply (comm_L (∪)).
Qed.

(** C6 (amended). On a non-empty history stack, a push immediately followed
    by an undo returns normally and leaves the stack exactly as it was before
    the push.  The selection is recomputed from the two datasets: it is the
    label set of the popped dataset when the popped action name contains
    "delete unselected", and otherwise the restored dataset's labels
    intersected with the symmetric difference of the restored and the popped
    label sets. *)
Theorem push_then_undo_restores_stack v a0 d0 action d :
  last (stack v) = Some (a0, d0) →
  let restored : gset Z := list_to_set (labels d0) in
  let popped : gset Z := list_to_set (labels d) in
  returned (push_then_undo make_color_map action d v) = true ∧
  stack (final (push_then_undo make_color_map action d v)) = stack v ∧
  selected (final (push_then_undo make_color_map action d v)) =
    (if str_contains "delete unselected" action then popped
     else restored ∩ ((restored ∖ popped) ∪ (popped ∖ restored))).
Proof.
  intros Hl restored popped.
  destruct (_enstack_run v a0 d0 action d Hl)
    as (v1 & Hpush & Hst1 & Hsel1 & _).
  destruct (_undo_run v1 (stack v) action d a0 d0 Hst1 Hl)
    as (v2 & Hundo & Hst2 & Hsel2 & _).
  unfold push_then_undo. run. rewrite Hpush, Hundo. cbn [returned final].
  split; [done|]. split; [done|].
  rewrite Hsel2. by destruct (str_contains "delete unselected" action).
Qed.

(** C7. An undo on a stack that holds only the load entry returns normally;
    it prints a notice and changes nothing else: stack, current dataset (the
    top of the stack), selection and highlight are as before, no signal is
    emitted and no dialog is shown. *)
Theorem undo_at_root_is_noop v :
  length (stack v) = 1%nat →
  _undo make_color_map v = Ok () (log_print "Nothing left to undo." v) ∧
  stack (final (_undo make_color_map v)) = stack v ∧
  last (stack (final (_undo make_color_map v))) = last (stack v) ∧
  selected (final (_undo make_color_map v)) = selected v ∧
  highlighted (final (_undo make_color_map v)) = highlighted v ∧
  emitted (final (_undo make_color_map v)) = emitted v ∧
  dialogs (final (_undo make_color_map v)) = dialogs v ∧
  printed (final (_undo make_color_map v)) =
    printed v ++ ["Nothing left to undo."].
Proof.
  intros Hlen. rewrite (_undo_nothing v Hlen). cbn [final]. by run.
Qed.

(** C8. [select_all] toggles over the whole current label set: it empties
    the selection when the selection equals the full label set and selects
    the full label set otherwise; invoked twice from an empty selection it
    ends with an empty selection. *)
Theorem select_all_toggles v a0 d0 :
  last (stack v) = Some (a0, d0) →
  let full : gset Z := list_to_set (labels d0) in
  returned (select_all v) = true ∧
  selected (final (select_all v)) =
    (if bool_decide (selected v = full) then ∅ else full) ∧
  (selected v = ∅ → returned (select_all_twice v) = true ∧
                    selected (final (select_all_twice v)) = ∅).
Proof.
  intros Hl full. rewrite (select_all_run v a0 d0 Hl).
  cbn [returned final]. run. split; [done|]. split; [done|].
  intros Hempty. unfold select_all_twice. run.
  rewrite (select_all_run v a0 d0 Hl). cbn zeta. run.
  rewrite (select_all_run _ a0 d0) by exact Hl. cbn zeta. run.
  cbn [returned final]. run. split; [done|].
  rewrite Hempty. fold full.
  destruct (decide ((∅ : gset Z) = full)) as [He|Hne].
  - rewrite (bool_decide_eq_true_2 _ He). run. by rewrite bool_decide_eq_true_2.
  - rewrite (bool_decide_eq_false_2 _ Hne). run. by rewrite bool_decide_eq_true_2.
Qed.

(** C9. On a non-empty stack [reset] truncates the stack to its first (load)
    entry, emits [UPDATED_CLUSTERS] carrying the load dataset and the
    previous one, and then raises [AttributeError] for [dataset_updated],
    a name the viewer does not define. *)
Theorem reset_raises_AttributeError v a1 d1 rest a0 d0 :
  stack v = (a1, d1) :: rest →
  last (stack v) = Some (a0, d0) →
  ("dataset_updated" ∉ viewer_attributes) ∧
  reset make_color_map v =
    Raise (AttributeError "dataset_updated") (final (reset make_color_map v)) ∧
  stack (final (reset make_color_map v)) = [(a1, d1)] ∧
  emitted (final (reset make_color_map v)) =
    emitted v ++ [UPDATED_CLUSTERS d1 d0].
Proof.
  intros Hs Hl. rewrite (reset_run v a1 d1 rest a0 d0 Hs Hl). cbn [final]. run.
  split; [|done]. by apply (bool_decide_unpack _).
Qed.

(** C1 (amended). An accepted delete-unselected edit (some label of the
    dataset is not selected) pushes the dataset without the unselected
    labels, leaves the selection empty, and announces the empty selection. *)
Theorem delete_unselected_clears_selection v a0 d0 :
  last (stack v) = Some (a0, d0) →
  list_to_set (labels d0) ∖ selected v ≠ ∅ →
  let surviving :=
    foldl delete_node d0 (elements (list_to_set (labels d0) ∖ selected v)) in
  returned (delete_unselected make_color_map v) = true ∧
  (∃ name, last (stack (final (delete_unselected make_color_map v))) =
           Some (name, surviving)) ∧
  selected (final (delete_unselected make_color_map v)) = ∅ ∧
  last (emitted (final (delete_unselected make_color_map v))) =
    Some (CLUSTER_SELECT ∅ (selected v)).
Proof.
  intros Hl Hne surviving.
  destruct (delete_unselected_run v a0 d0 Hl Hne)
    as (v' & name & Hrun & Hst & Hsel & _ & Hem).
  rewrite Hrun. cbn [returned final]. split; [done|]. split.
  - exists name. rewrite Hst. apply last_snoc.
  - split; [done|]. rewrite Hem.
    apply last_snoc2.
Qed.

(** C10. A [CLUSTER_HIGHLIGHT] signal always carries exactly two values,
    the highlight handler of the timeseries view takes three positional
    parameters, and so delivering any such signal to it -- in particular the
    one [set_highlight] emits and the one [clear] emits -- ends in a
    [TypeError] with the view left as it was. *)
Theorem highlight_delivery_raises_TypeError :
  (∀ new old,
     length (signal_args (CLUSTER_HIGHLIGHT (D := D) new old)) = 2%nat) ∧
  (∀ parent, positional (on_cluster_highlight parent) = 3%nat) ∧
  (∀ parent new old plot,
     deliver (on_cluster_highlight parent) (CLUSTER_HIGHLIGHT new old) plot =
     Raise TypeError plot) ∧
  (∀ v label,
     last (emitted (final (set_highlight label v))) =
     Some (CLUSTER_HIGHLIGHT label (highlighted v))) ∧
  (∀ v,
     last (emitted (final (clear v))) =
     Some (CLUSTER_HIGHLIGHT None (highlighted v))).
Proof.
  split; [done|]. split; [done|]. split; [done|]. split.
  - intros v label. unfold set_highlight. run. cbn [final]. run.
    apply last_snoc.
  - intros v. rewrite clear_run. cbn [final]. run. apply last_snoc.
Qed.

End ViewerFacts.

(** * The claims on concrete viewers *)

Ltac by_evaluation := vm_compute; repeat split; try reflexivity; try lia.

Lemma gset_neq_by_evaluation (X Y : gset Z) : bool_decide (X ≠ Y) = true → X ≠ Y.
Proof. apply bool_decide_eq_true_1. Qed.

(** ** Scenarios of the specification, evaluated *)

Example str_contains_action_names :
  str_contains "delete unselected" "delete unselected nodes" = true ∧
  str_contains "delete unselected" "delete nodes" = false ∧
  str_contains "delete unselected" "merge" = false.
Proof. by_evaluation. Qed.

(** Labels 1, 2, 3 with 1 and 2 selected: the merge yields labels 3 and 4
    and the selection becomes the single new label 4. *)
Example merge_scenario :
  labels (merge_nodes d123 {[1; 2]}) = [3; 4] ∧
  selected (final (merge label_colors (viewer123 {[1; 2]} None))) = {[4]}.
Proof. by_evaluation. Qed.

(** Called with three arguments the highlight handler does its work: the
    scatter of label 2 turns white with a coloured edge and becomes visible. *)
Example on_cluster_highlight_three_arguments :
  py_call (on_cluster_highlight (viewer123 ∅ None))
          [PyInt 2; PyNone; PyNone] plot123 =
  Ok () (mkPlot (<[2 := [mkScatter White (Mapped 2) true]]> (scatters plot123))).
Proof. by_evaluation. Qed.

(** ** C1 *)

(** C1, as stated, fails: with labels 1, 2, 3 and selection 2,
    delete-unselected leaves the dataset with the single label 2, but the
    selection is empty and not that surviving label set. *)
Lemma delete_unselected_selection_is_not_survivors :
  returned (delete_unselected label_colors (viewer123 {[2]} None)) = true ∧
  last (stack (final (delete_unselected label_colors (viewer123 {[2]} None)))) =
    Some ("delete unselected nodes", mkFlat [2]) ∧
  selected (final (delete_unselected label_colors (viewer123 {[2]} None))) ≠
    list_to_set (labels (mkFlat [2])).
Proof.
  split; [by_evaluation|]. split; [by_evaluation|].
  apply gset_neq_by_evaluation. by_evaluation.
Qed.

Lemma delete_unselected_clears_selection_witness :
  last (stack (viewer123 {[2]} None)) = Some ("load", d123) ∧
  list_to_set (labels d123) ∖ selected (viewer123 {[2]} None) ≠ ∅ ∧
  selected (final (delete_unselected label_colors (viewer123 {[2]} None))) = ∅ ∧
  last (emitted (final (delete_unselected label_colors (viewer123 {[2]} None)))) =
    Some (CLUSTER_SELECT ∅ {[2]}).
Proof.
  assert (Hl : last (stack (viewer123 {[2]} None)) = Some ("load", d123))
    by reflexivity.
  assert (Hne : list_to_set (labels d123) ∖ selected (viewer123 {[2]} None)
                ≠ (∅ : gset Z))
    by (apply gset_neq_by_evaluation; vm_compute; reflexivity).
  destruct (delete_unselected_clears_selection label_colors _ _ _ Hl Hne)
    as (_ & _ & Hsel & Hem).
  split; [exact Hl|]. split; [exact Hne|]. split; [exact Hsel|exact Hem].
Defined.

(** ** C2 *)

(** C2 fails for [delete]: with labels 1, 2, 3 and selection 2 the edit is
    pushed and the selection changes from 2 to empty, yet the only signal
    emitted is [UPDATED_CLUSTERS]. *)
Theorem delete_emits_no_CLUSTER_SELECT :
  returned (delete label_colors (viewer123 {[2]} None)) = true ∧
  stack (final (delete label_colors (viewer123 {[2]} None))) =
    [("load", d123); ("delete node", mkFlat [1; 3])] ∧
  selected (viewer123 {[2]} None) = {[2]} ∧
  selected (final (delete label_colors (viewer123 {[2]} None))) = ∅ ∧
  emitted (final (delete label_colors (viewer123 {[2]} None))) =
    [UPDATED_CLUSTERS (mkFlat [1; 3]) d123].
Proof. by_evaluation. Qed.

(** ** C3 *)

(** C3 fails for [delete_unselected]: with labels 1, 2, 3 all selected there
    is nothing to delete, the command is rejected with the dialog and the
    stack is untouched, yet the selection is emptied and a [CLUSTER_SELECT]
    is emitted. *)
Theorem delete_unselected_rejected_changes_selection :
  returned (delete_unselected label_colors (viewer123 {[1; 2; 3]} None)) = true ∧
  dialogs (final (delete_unselected label_colors (viewer123 {[1; 2; 3]} None))) =
    [("Delete failed", "No clusters selected for deletion")] ∧
  stack (final (delete_unselected label_colors (viewer123 {[1; 2; 3]} None))) =
    stack (viewer123 {[1; 2; 3]} None) ∧
  selected (viewer123 {[1; 2; 3]} None) = {[1; 2; 3]} ∧
  selected (final (delete_unselected label_colors (viewer123 {[1; 2; 3]} None))) =
    ∅ ∧
  emitted (final (delete_unselected label_colors (viewer123 {[1; 2; 3]} None))) =
    [CLUSTER_SELECT ∅ {[1; 2; 3]}].
Proof. by_evaluation. Qed.

(** ** C4 *)

(** C4 fails on the highlight: with label 2 highlighted, [clear] empties the
    selection and emits both signals, the second one announcing no
    highlight, but the viewer's [highlighted] is still 2. *)
Theorem clear_keeps_highlighted :
  returned (clear (viewer123 {[1]} (Some 2))) = true ∧
  selected (final (clear (viewer123 {[1]} (Some 2)))) = ∅ ∧
  emitted (final (clear (viewer123 {[1]} (Some 2)))) =
    [CLUSTER_SELECT ∅ {[1]}; CLUSTER_HIGHLIGHT None (Some 2)] ∧
  highlighted (final (clear (viewer123 {[1]} (Some 2)))) = Some 2.
Proof. by_evaluation. Qed.

(** ** C5 *)

Lemma merge_selection_rule_witness :
  last (stack viewer_sel12) = Some ("load", d123) ∧
  (2 ≤ size (selected viewer_sel12))%nat ∧
  last (stack (final (merge label_colors viewer_sel12))) =
    Some ("merge", mkFlat [3; 4]) ∧
  selected (final (merge label_colors viewer_sel12)) = {[4]}.
Proof.
  assert (Hl : last (stack viewer_sel12) = Some ("load", d123))
    by reflexivity.
  assert (Hge : (2 ≤ size (selected viewer_sel12))%nat)
    by (vm_compute; lia).
  destruct (merge_selection_rule label_colors _ _ _ Hl Hge) as (_ & Hst & Hsel).
  split; [exact Hl|]. split; [exact Hge|]. split.
  - rewrite Hst. reflexivity.
  - rewrite Hsel. vm_compute. reflexivity.
Defined.

(** ** C6 *)

(** C6, as stated, fails on the selection: push a "delete unselected nodes"
    entry holding the dataset with the single label 2 on top of labels
    1, 2, 3 and undo it.  The stack is back to what it was, but the selection
    is the popped dataset's label set, 2 -- here the very selection from
    before the push -- and not what the dataset-edit policy gives for the
    transition from the popped to the restored dataset under either of its
    branches (1, 2, 3 for delete-unselected; 1, 3 for the intersection rule). *)
Lemma undo_selection_is_not_edit_policy :
  stack (final (push_then_undo label_colors "delete unselected nodes"
                  (mkFlat [2]) (viewer123 {[2]} None))) =
    stack (viewer123 {[2]} None) ∧
  selected (final (push_then_undo label_colors "delete unselected nodes"
                     (mkFlat [2]) (viewer123 {[2]} None))) =
    selected (viewer123 {[2]} None) ∧
  selected (final (push_then_undo label_colors "delete unselected nodes"
                     (mkFlat [2]) (viewer123 {[2]} None))) ≠
    spec_on_dataset_edit (mkFlat [2]) d123 EditDeleteUnselected ∧
  selected (final (push_then_undo label_colors "delete unselected nodes"
                     (mkFlat [2]) (viewer123 {[2]} None))) ≠
    spec_on_dataset_edit (mkFlat [2]) d123 EditUndo.
Proof.
  split; [by_evaluation|]. split; [by_evaluation|].
  split; apply gset_neq_by_evaluation; by_evaluation.
Qed.

Lemma push_then_undo_restores_stack_witness :
  last (stack (viewer123 {[1; 2]} None)) = Some ("load", d123) ∧
  returned (push_then_undo label_colors "merge" (mkFlat [3; 4])
              (viewer123 {[1; 2]} None)) = true ∧
  stack (final (push_then_undo label_colors "merge" (mkFlat [3; 4])
                  (viewer123 {[1; 2]} None))) =
    stack (viewer123 {[1; 2]} None) ∧
  selected (final (push_then_undo label_colors "merge" (mkFlat [3; 4])
                     (viewer123 {[1; 2]} None))) = {[1; 2]}.
Proof.
  assert (Hl : last (stack (viewer123 {[1; 2]} None)) = Some ("load", d123))
    by reflexivity.
  destruct (push_then_undo_restores_stack label_colors _ _ _ "merge"
              (mkFlat [3; 4]) Hl) as (Hret & Hst & Hsel).
  split; [exact Hl|]. split; [exact Hret|]. split; [exact Hst|].
  rewrite Hsel. vm_compute. reflexivity.
Defined.

(** ** C7 *)

Lemma undo_at_root_is_noop_witness :
  length (stack (viewer123 {[2]} (Some 1))) = 1%nat ∧
  returned (_undo label_colors (viewer123 {[2]} (Some 1))) = true ∧
  stack (final (_undo label_colors (viewer123 {[2]} (Some 1)))) =
    [("load", d123)] ∧
  selected (final (_undo label_colors (viewer123 {[2]} (Some 1)))) = {[2]} ∧
  highlighted (final (_undo label_colors (viewer123 {[2]} (Some 1)))) = Some 1 ∧
  emitted (final (_undo label_colors (viewer123 {[2]} (Some 1)))) = [].
Proof.
  assert (Hlen : length (stack (viewer123 {[2]} (Some 1))) = 1%nat)
    by reflexivity.
  destruct (undo_at_root_is_noop label_colors _ Hlen)
    as (Hret & Hst & _ & Hsel & Hhi & Hem & _).
  split; [exact Hlen|]. split; [by rewrite Hret|]. split; [exact Hst|].
  split; [exact Hsel|]. split; [exact Hhi|exact Hem].
Defined.

(** ** C8 *)

Lemma select_all_toggles_witness :
  last (stack (viewer123 ∅ None)) = Some ("load", d123) ∧
  selected (viewer123 ∅ None) = ∅ ∧
  selected (final (select_all (viewer123 ∅ None))) = {[1; 2; 3]} ∧
  selected (final (select_all_twice (viewer123 ∅ None))) = ∅.
Proof.
  assert (Hl : last (stack (viewer123 ∅ None)) = Some ("load", d123))
    by reflexivity.
  assert (He : selected (viewer123 ∅ None) = ∅) by reflexivity.
  destruct (select_all_toggles _ _ _ Hl) as (_ & Hsel & Htwice).
  destruct (Htwice He) as [_ Hsel2].
  split; [exact Hl|]. split; [exact He|]. split; [|exact Hsel2].
  rewrite Hsel. vm_compute. reflexivity.
Defined.

(** ** C9 *)

Lemma reset_raises_AttributeError_witness :
  stack viewer_merged = ("load", d123) :: [("merge", mkFlat [3; 4])] ∧
  last (stack viewer_merged) = Some ("merge", mkFlat [3; 4]) ∧
  reset label_colors viewer_merged =
    Raise (AttributeError "dataset_updated")
          (final (reset label_colors viewer_merged)) ∧
  stack (final (reset label_colors viewer_merged)) = [("load", d123)] ∧
  emitted (final (reset label_colors viewer_merged)) =
    [UPDATED_CLUSTERS d123 (mkFlat [3; 4])].
Proof.
  assert (Hs : stack viewer_merged = ("load", d123) :: [("merge", mkFlat [3; 4])])
    by reflexivity.
  assert (Hl : last (stack viewer_merged) = Some ("merge", mkFlat [3; 4]))
    by reflexivity.
  destruct (reset_raises_AttributeError label_colors _ _ _ _ _ _ Hs Hl)
    as (_ & Hraise & Hst & Hem).
  split; [exact Hs|]. split; [exact Hl|]. split; [exact Hraise|].
  split; [exact Hst|exact Hem].
Defined.

(** * Further properties of the viewer *)

Lemma gset_add_remove (X : gset Z) (l : Z) : l ∉ X → (X ∪ {[l]}) ∖ {[l]} = X.
Proof.
  intros Hnin.
  rewrite difference_union_distr_l_L, difference_diag_L, union_empty_r_L.
  by apply difference_disjoint_L, disjoint_singleton_r.
Qed.

Lemma gset_elem_of_add (X : gset Z) (l : Z) : l ∈ X ∪ {[l]}.
Proof. by apply elem_of_union_r, elem_of_singleton. Qed.

Lemma gset_not_elem_of_remove (X : gset Z) (l : Z) : l ∉ X ∖ {[l]}.
Proof. rewrite elem_of_difference, elem_of_singleton. by intros [_ []]. Qed.

Section ViewerInvariants.

Context {D : Type} `{ClusterDataset D}.
Context {Color : Type} (make_color_map : list Z → gmap Z Color).

Implicit Types (v : SussViewer (D := D) (Color := Color)) (d root : D).

Ltac run :=
  repeat (progress
    (unfold mbind, M_bind, bind, mret, M_ret, ret, get, modify, raise,
            warning, print, emit_CLUSTER_SELECT, emit_CLUSTER_HIGHLIGHT;
     cbn beta iota;
     cbn [stack selected highlighted colors history_menu
          timer_active emitted dialogs printed
          set_stack set_selected_field set_highlighted_field
          set_colors set_history_menu set_timer
          log_signal log_dialog log_print])).

(** The whole state after a push. *)
Lemma _enstack_state v a0 d0 action d :
  last (stack v) = Some (a0, d0) →
  _enstack make_color_map action d v =
  Ok () (set_timer true
           (set_history_menu (menu_of (stack v ++ [(action, d)]))
              (set_colors (make_color_map (labels d))
                 (log_signal (UPDATED_CLUSTERS d d0)
                    (set_colors (make_color_map (labels d))
                       (set_stack (stack v ++ [(action, d)])
                          (set_timer false v))))))).
Proof.
  intros Hl. unfold _enstack, timer_paused. run.
  rewrite (dataset_top _ a0 d0) by exact Hl. run.
  do 2 (rewrite (dataset_top _ action d) by (run; apply last_snoc); run).
  rewrite (emit_UPDATED_CLUSTERS_run _ _ action d) by (run; apply last_snoc).
  by run.
Qed.

(** The whole state after an undo that pops an entry. *)
Lemma _undo_state v rest action popped a0 d0 :
  stack v = rest ++ [(action, popped)] →
  last rest = Some (a0, d0) →
  let sel : gset Z :=
    if str_contains "delete unselected" action
    then list_to_set (labels popped)
    else list_to_set (labels d0) ∩ get_changed_labels d0 popped in
  _undo make_color_map v =
  Ok () (set_timer true
           (log_signal (CLUSTER_SELECT sel (selected v))
              (set_history_menu (menu_of rest)
                 (set_colors (make_color_map (labels d0))
                    (log_signal (UPDATED_CLUSTERS d0 popped)
                       (set_colors (make_color_map (labels d0))
                          (set_selected_field sel
                             (set_stack rest (set_timer false v))))))))).
Proof.
  intros Hs Hl sel. apply last_length_ge_1 in Hl as Hlen.
  unfold _undo, timer_paused. run.
  rewrite bool_decide_eq_false_2
    by (rewrite Hs, length_app; cbn [length]; lia).
  run. rewrite Hs, list_pop_snoc. run.
  do 3 (rewrite (dataset_top _ a0 d0) by exact Hl; run).
  subst sel. destruct (str_contains "delete unselected" action); run.
  all: do 2 (rewrite (dataset_top _ a0 d0) by exact Hl; run).
  all: rewrite (emit_UPDATED_CLUSTERS_run _ _ a0 d0) by exact Hl; by run.
Qed.

(** ** The invariant of the viewer *)

(** Changes that touch neither the stack, the menu, the colours nor the
    timer keep the invariant. *)
Lemma consistent_frame root v v' :
  consistent make_color_map root v →
  stack v' = stack v →
  history_menu v' = history_menu v →
  colors v' = colors v →
  timer_active v' = timer_active v →
  consistent make_color_map root v'.
Proof.
  intros (Hst & Hmenu & Hcol & Htimer) E1 E2 E3 E4.
  unfold consistent. by rewrite E1, E2, E3, E4.
Qed.

Lemma consistent_top root v :
  consistent make_color_map root v → ∃ a d, last (stack v) = Some (a, d).
Proof. intros (_ & _ & (a & d & Hl & _) & _). eauto. Qed.

Lemma __init___consistent root :
  consistent make_color_map root (__init__ make_color_map root).
Proof.
  unfold consistent, __init__. cbn. split; [by exists []|].
  split; [done|]. split; [|done]. by exists "load", root.
Qed.

(** A push re-establishes the invariant; it needs only the load entry. *)
Lemma _enstack_consistent root v action d :
  (∃ rest, stack v = ("load", root) :: rest) →
  ∃ v', _enstack make_color_map action d v = Ok () v' ∧
        consistent make_color_map root v' ∧
        stack v' = stack v ++ [(action, d)] ∧
        selected v' = selected v ∧
        highlighted v' = highlighted v ∧
        (∃ d0, emitted v' = emitted v ++ [UPDATED_CLUSTERS d d0]) ∧
        dialogs v' = dialogs v.
Proof.
  intros [rest Hst].
  assert (∃ a0 d0, last (stack v) = Some (a0, d0)) as (a0 & d0 & Hl).
  { rewrite Hst. destruct (last (("load", root) :: rest)) as [[a0 d0]|] eqn:E;
      [eauto|]. by apply last_None in E. }
  eexists. split; [apply (_enstack_state v a0 d0 action d Hl)|].
  unfold consistent. run. split; [|by eauto 10].
  split; [exists (rest ++ [(action, d)]); by rewrite Hst|].
  split; [done|]. split; [|done].
  exists action, d. by rewrite last_snoc.
Qed.

Abbreviation no_highlight :=
  (Forall (λ s : Signal (D := D), is_CLUSTER_HIGHLIGHT s = false)).

Lemma load_entry_top root v :
  (∃ rest, stack v = ("load", root) :: rest) →
  ∃ a0 d0, last (stack v) = Some (a0, d0).
Proof.
  intros [rest Hst]. rewrite Hst.
  destruct (last (("load", root) :: rest)) as [[a0 d0]|] eqn:E; [eauto|].
  by apply last_None in E.
Qed.

Lemma _undo_consistent root v :
  consistent make_color_map root v →
  ∃ v' sigs, _undo make_color_map v = Ok () v' ∧
             consistent make_color_map root v' ∧
             highlighted v' = highlighted v ∧
             dialogs v' = dialogs v ∧
             emitted v' = emitted v ++ sigs ∧ no_highlight sigs.
Proof.
  intros Hc. pose proof Hc as ((rest & Hst) & Hmenu & Hcol & Htimer).
  destruct (decide (length (stack v) = 1%nat)) as [Hlen|Hlen].
  { exists (log_print "Nothing left to undo." v), [].
    split; [by apply _undo_nothing|]. split; [by apply (consistent_frame root v)|].
    run. by rewrite app_nil_r. }
  destruct (exists_last (l := rest)) as (r & [action popped] & ->).
  { intros ->. by rewrite Hst in Hlen. }
  destruct (load_entry_top root (set_stack (("load", root) :: r) v))
    as (a0 & d0 & Hl); [by exists r|]. cbn [stack set_stack] in Hl.
  eexists. eexists. split.
  { apply (_undo_state v (("load", root) :: r) action popped a0 d0);
      [by rewrite Hst|exact Hl]. }
  unfold consistent. run. split; [|split; [done|split; [done|]]].
  - split; [by exists r|]. split; [done|]. split; [|done]. by exists a0, d0.
  - rewrite <- (assoc_L (++)). split; [reflexivity|].
    by repeat (constructor; [done|]).
Qed.

Lemma _delete_consistent root v (to_delete : gset Z) action :
  (∃ rest, stack v = ("load", root) :: rest) →
  to_delete ≠ ∅ →
  ∃ v', _delete make_color_map to_delete action v = Ok () v' ∧
        consistent make_color_map root v' ∧
        selected v' = selected v ∧
        highlighted v' = highlighted v ∧
        dialogs v' = dialogs v ∧
        (∃ new old, emitted v' = emitted v ++ [UPDATED_CLUSTERS new old]).
Proof.
  intros Hst Hne. destruct (load_entry_top root v Hst) as (a0 & d0 & Hl).
  destruct (_enstack_consistent root v
              ((action +:+ " node") +:+
               (if bool_decide (1 < size to_delete)%nat then "s" else ""))
              (foldl delete_node d0 (elements to_delete)) Hst)
    as (v' & Hrun & Hc' & _ & Hsel & Hhi & (d1 & Hem) & Hdi).
  exists v'. split; [|by eauto 10].
  unfold _delete.
  rewrite bool_decide_eq_false_2
    by (intros Hz; apply Hne, leibniz_equiv, size_empty_iff, Hz).
  run. rewrite (dataset_top _ a0 d0) by exact Hl. run. exact Hrun.
Qed.

(** Every action returns normally on a consistent viewer, keeps it
    consistent, leaves [highlighted] alone, only appends signals, and shows
    a dialog only when it leaves the stack alone. *)
Lemma trigger_consistent root v a :
  consistent make_color_map root v →
  ∃ v' sigs, trigger make_color_map a v = Ok () v' ∧
             consistent make_color_map root v' ∧
             highlighted v' = highlighted v ∧
             (dialogs v' = dialogs v ∨ stack v' = stack v) ∧
             emitted v' = emitted v ++ sigs ∧
             match a with clear_action => True | _ => no_highlight sigs end.
Proof.
  intros Hc. pose proof Hc as (Hst & Hmenu & (a0 & d0 & Hl & Hcol) & Htimer).
  destruct a as [| | | | | |n]; cbn [trigger].
  - (* undo *)
    destruct (_undo_consistent root v Hc)
      as (v' & sigs & ? & ? & ? & ? & ? & ?).
    exists v', sigs. eauto 10.
  - (* merge *)
    destruct (decide (size (selected v) < 2)%nat) as [Hlt|Hge].
    { eexists. exists []. split; [by apply merge_rejected|].
      split; [by apply (consistent_frame root v)|]. run.
      rewrite app_nil_r. split; [done|]. split; [by right|]. by split. }
    set (nd := merge_nodes d0 (selected v)).
    set (v1 := set_colors (make_color_map (labels nd))
                 (set_selected_field
                    (list_to_set (labels nd) ∩ get_changed_labels nd d0) v)).
    destruct (_enstack_consistent root v1 "merge" nd Hst)
      as (v2 & Hrun & Hc2 & _ & Hsel & Hhi & (d1 & Hem) & Hdi).
    exists (log_signal (CLUSTER_SELECT (selected v2) (selected v)) v2).
    eexists. split.
    { unfold merge. run. rewrite bool_decide_eq_false_2 by lia. run.
      do 3 (rewrite (dataset_top _ a0 d0) by exact Hl; run).
      fold nd. fold v1. rewrite Hrun. by run. }
    split; [by apply (consistent_frame root v2)|]. run.
    split; [exact Hhi|]. split; [by left|]. rewrite Hem, <- (assoc_L (++)).
    split; [reflexivity|]. by repeat (constructor; [done|]).
  - (* delete *)
    destruct (decide (selected v = ∅)) as [He|Hne].
    { eexists. exists []. split.
      { unfold delete. run. rewrite (_delete_rejected _ _ _ _ He). by run. }
      split; [by apply (consistent_frame root v)|]. run.
      rewrite app_nil_r. split; [done|]. split; [by right|]. by split. }
    destruct (_delete_consistent root v (selected v) "delete" Hst Hne)
      as (v' & Hrun & Hc' & _ & Hhi & Hdi & (new & old & Hem)).
    exists (set_selected_field ∅ v'). eexists. split.
    { unfold delete. run. rewrite Hrun. by run. }
    split; [by apply (consistent_frame root v')|]. run.
    split; [exact Hhi|]. split; [by left|]. split; [exact Hem|].
    by repeat (constructor; [done|]).
  - (* clear *)
    eexists. eexists. split; [apply clear_run|].
    split; [by apply (consistent_frame root v)|]. run.
    rewrite <- (assoc_L (++)). split; [done|]. split; [by left|]. by split.
  - (* delete unselected *)
    destruct (decide (list_to_set (labels d0) ∖ selected v = (∅ : gset Z)))
      as [He|Hne].
    { eexists. eexists. split; [by apply (delete_unselected_rejected _ v a0 d0)|].
      split; [by apply (consistent_frame root v)|]. run.
      split; [done|]. split; [by right|]. split; [reflexivity|].
      by repeat (constructor; [done|]). }
    destruct (_delete_consistent root (set_selected_field ∅ v)
                (list_to_set (labels d0) ∖ selected v) "delete unselected"
                Hst Hne)
      as (v' & Hrun & Hc' & Hsel & Hhi & Hdi & (new & old & Hem)).
    exists (log_signal (CLUSTER_SELECT (selected v') (selected v)) v').
    eexists. split.
    { unfold delete_unselected. run.
      rewrite (dataset_top _ a0 d0) by exact Hl. run.
      rewrite Hrun. by run. }
    split; [by apply (consistent_frame root v')|]. run.
    split; [exact Hhi|]. split; [by left|]. rewrite Hem, <- (assoc_L (++)).
    split; [reflexivity|]. by repeat (constructor; [done|]).
  - (* select all *)
    eexists. eexists. split; [by apply (select_all_run v a0 d0)|].
    cbn zeta. split; [by apply (consistent_frame root v)|]. run.
    split; [done|]. split; [by left|]. split; [reflexivity|].
    by repeat (constructor; [done|]).
  - (* a history entry *)
    run. destruct (history_menu v !! n) as [[[act k] d]|] eqn:Hn.
    + destruct (_enstack_consistent root v "restored previous state" d Hst)
        as (v' & Hrun & Hc' & _ & _ & Hhi & (d1 & Hem) & Hdi).
      exists v'. eexists. unfold restore. split; [exact Hrun|].
      split; [exact Hc'|]. split; [exact Hhi|]. split; [by left|].
      split; [exact Hem|]. by repeat (constructor; [done|]).
    + exists v, []. rewrite app_nil_r. split; [done|]. split; [exact Hc|].
      split; [done|]. split; [by left|]. split; [done|]. constructor.
Qed.

Lemma handle_consistent root v e :
  consistent make_color_map root v →
  ∃ v', handle make_color_map e v = Ok () v' ∧
        consistent make_color_map root v'.
Proof.
  intros Hc. destruct e as [a|label|sel|label on]; cbn [handle].
  - destruct (trigger_consistent root v a Hc) as (v' & sigs & ? & ? & _).
    eauto.
  - eexists. split; [apply set_highlight_run|].
    by apply (consistent_frame root v).
  - destruct (decide (sel = selected v)) as [->|Hne].
    + eexists. split; [apply set_selected_same|done].
    + eexists. split; [by apply set_selected_changed|].
      by apply (consistent_frame root v).
  - destruct on, (decide (label ∈ selected v)) as [Hin|Hnin].
    + rewrite toggle_selected_present by done. eauto.
    + rewrite toggle_selected_absent by done. eexists. split; [done|].
      by apply (consistent_frame root v).
    + unfold toggle_selected. run. cbn [andb negb].
      rewrite bool_decide_eq_true_2 by done. run. eexists. split; [done|].
      by apply (consistent_frame root v).
    + unfold toggle_selected. run. cbn [andb negb].
      rewrite bool_decide_eq_false_2 by done. run. eauto.
Qed.

Lemma run_events_consistent root es v :
  consistent make_color_map root v →
  ∃ v', run_events make_color_map es v = Ok () v' ∧
        consistent make_color_map root v'.
Proof.
  revert v. induction es as [|e es IH]; intros v Hc; cbn [run_events].
  - by exists v.
  - destruct (handle_consistent root v e Hc) as (v1 & Hrun & Hc1).
    destruct (IH v1 Hc1) as (v2 & Hrun2 & Hc2).
    exists v2. run. by rewrite Hrun.
Qed.

Lemma reachable_consistent root es :
  consistent make_color_map root
    (final (run_events make_color_map es (__init__ make_color_map root))).
Proof.
  destruct (run_events_consistent root es (__init__ make_color_map root)
              (__init___consistent root)) as (v' & Hrun & Hc).
  by rewrite Hrun.
Qed.


(** X2. In every state reachable from a freshly constructed viewer, no
    action changes the [highlighted] field, and no action other than
    Clear Selection emits [CLUSTER_HIGHLIGHT]; Clear Selection emits exactly
    a [CLUSTER_SELECT] and a [CLUSTER_HIGHLIGHT]. *)
Theorem actions_never_change_highlighted root es a :
  let v := final (run_events make_color_map es (__init__ make_color_map root)) in
  highlighted (final (trigger make_color_map a v)) = highlighted v ∧
  ∃ sigs, emitted (final (trigger make_color_map a v)) = emitted v ++ sigs ∧
          match a with
          | clear_action =>
              sigs = [CLUSTER_SELECT ∅ (selected v);
                      CLUSTER_HIGHLIGHT None (highlighted v)]
          | _ => no_highlight sigs
          end.
Proof.
  intros v. pose proof (reachable_consistent root es) as Hc. fold v in Hc.
  destruct (trigger_consistent root v a Hc)
    as (v' & sigs & Hrun & _ & Hhi & _ & Hem & Hsigs).
  rewrite Hrun. cbn [final]. split; [exact Hhi|].
  destruct a; try by (exists sigs).
  cbn [trigger] in Hrun. rewrite clear_run in Hrun.
  injection Hrun as <-. eexists. split; [|reflexivity]. run.
  by rewrite <- (assoc_L (++)).
Qed.

(** X3. In every state reachable from a freshly constructed viewer, an
    action that shows a warning dialog has left the history stack as it
    was: a rejected command never pushes or pops. *)
Theorem dialog_means_stack_untouched root es a :
  let v := final (run_events make_color_map es (__init__ make_color_map root)) in
  dialogs (final (trigger make_color_map a v)) = dialogs v ∨
  stack (final (trigger make_color_map a v)) = stack v.
Proof.
  intros v. pose proof (reachable_consistent root es) as Hc. fold v in Hc.
  destruct (trigger_consistent root v a Hc)
    as (v' & sigs & Hrun & _ & _ & Hor & _).
  by rewrite Hrun.
Qed.

(** X4. On a non-empty stack, [k] undo requests in a row all return
    normally and leave the first [max 1 (len - k)] entries of the stack:
    undo removes one entry at a time and never removes the first one. *)
Theorem undo_times_stack k v :
  stack v ≠ [] →
  returned (undo_times make_color_map k v) = true ∧
  stack (final (undo_times make_color_map k v)) =
    take (Nat.max 1 (length (stack v) - k)) (stack v).
Proof.
  revert v. induction k as [|k IH]; intros v Hne; cbn [undo_times].
  { run. cbn [returned final]. split; [done|].
    rewrite Nat.sub_0_r, take_ge; [done|]. lia. }
  destruct (decide (length (stack v) = 1%nat)) as [Hlen|Hlen].
  { run. rewrite (_undo_nothing _ v Hlen).
    destruct (IH (log_print "Nothing left to undo." v) Hne) as [Hret Hst].
    split; [exact Hret|]. rewrite Hst. run. rewrite Hlen.
    f_equal. lia. }
  destruct (exists_last Hne) as (rest & [action popped] & Hst).
  assert (rest ≠ []) as Hrest.
  { intros ->. by rewrite Hst in Hlen. }
  destruct (last rest) as [[a0 d0]|] eqn:Hl; [|by apply last_None in Hl].
  pose proof (_undo_state v rest action popped a0 d0 Hst Hl)
    as Hundo. cbn zeta in Hundo.
  run. rewrite Hundo.
  match goal with |- context [undo_times _ k ?v1] =>
    destruct (IH v1) as [Hret Hst1]; [by run|]; split; [exact Hret|];
    rewrite Hst1 end.
  run. rewrite Hst, length_app. cbn [length].
  replace (length rest + 1 - Datatypes.S k)%nat with (length rest - k)%nat
    by lia.
  rewrite take_app_le; [done|].
  destruct rest; [done|]. cbn [length]. lia.
Qed.

(** X5. On a non-empty stack [reset] leaves the animation timer stopped:
    the exception leaves [timer_paused] before the timer is restarted.  The
    history menu then shows the load entry only and the colours are those of
    the load dataset. *)
Theorem reset_leaves_timer_stopped v a1 d1 rest :
  stack v = (a1, d1) :: rest →
  timer_active (final (reset make_color_map v)) = false ∧
  history_menu (final (reset make_color_map v)) = [(a1, len d1, d1)] ∧
  colors (final (reset make_color_map v)) = make_color_map (labels d1).
Proof.
  intros Hs.
  destruct (last (stack v)) as [[a0 d0]|] eqn:Hl.
  - by rewrite (reset_run _ v a1 d1 rest a0 d0 Hs Hl).
  - rewrite Hs in Hl. by apply last_None in Hl.
Qed.

(** ** The setters *)

(** X6. Repeating a [toggle_selected] call with the same arguments changes
    nothing and emits nothing; after the first call the label is in the
    selection exactly when it was toggled on. *)
Theorem toggle_selected_idempotent v (label : Z) (on : bool) :
  toggle_selected label on (final (toggle_selected label on v)) =
    Ok () (final (toggle_selected label on v)) ∧
  bool_decide (label ∈ selected (final (toggle_selected label on v))) = on.
Proof.
  destruct on, (decide (label ∈ selected v)) as [Hin|Hnin].
  - rewrite !(toggle_selected_present v label Hin). cbn [final].
    rewrite (toggle_selected_present v label Hin).
    by rewrite bool_decide_eq_true_2.
  - rewrite !(toggle_selected_absent v label Hnin). cbn [final].
    rewrite toggle_selected_present by (run; apply gset_elem_of_add). run.
    rewrite bool_decide_eq_true_2; [done|apply gset_elem_of_add].
  - assert (toggle_selected label false v =
            Ok () (log_signal
                     (CLUSTER_SELECT (selected v ∖ {[label]}) (selected v))
                     (set_selected_field (selected v ∖ {[label]}) v))) as Hrun.
    { unfold toggle_selected. run. cbn [andb negb].
      by rewrite (bool_decide_eq_true_2 _ Hin). }
    rewrite !Hrun. cbn [final]. unfold toggle_selected. run. cbn [andb negb].
    rewrite !bool_decide_eq_false_2 by apply gset_not_elem_of_remove. by run.
  - assert (toggle_selected label false v = Ok () v) as Hrun.
    { unfold toggle_selected. run. cbn [andb negb].
      by rewrite (bool_decide_eq_false_2 _ Hnin). }
    rewrite !Hrun. cbn [final]. rewrite Hrun.
    by rewrite bool_decide_eq_false_2.
Qed.

(** X7. Toggling an unselected label on and then off again brings the
    selection back to what it was and emits two [CLUSTER_SELECT] signals,
    each carrying the selection after and before its call. *)
Theorem toggle_selected_on_off v (label : Z) :
  label ∉ selected v →
  let v2 := final (toggle_selected label false
                     (final (toggle_selected label true v))) in
  selected v2 = selected v ∧
  emitted v2 = emitted v ++
    [CLUSTER_SELECT (selected v ∪ {[label]}) (selected v);
     CLUSTER_SELECT (selected v) (selected v ∪ {[label]})].
Proof.
  intros Hnin. rewrite toggle_selected_absent by done. cbn [final].
  unfold toggle_selected. run. cbn [andb negb].
  rewrite bool_decide_eq_true_2 by apply gset_elem_of_add.
  run. cbn [final]. run. rewrite (gset_add_remove _ _ Hnin).
  by rewrite <- (assoc_L (++)).
Qed.

(** X8. [set_selected] emits [CLUSTER_SELECT] exactly when the new set
    differs from the current one, always ends with the new set selected, and
    repeating the call changes nothing and emits nothing. *)
Theorem set_selected_emits_on_change v (sel : gset Z) :
  selected (final (set_selected sel v)) = sel ∧
  emitted (final (set_selected sel v)) =
    (if bool_decide (sel = selected v) then emitted v
     else emitted v ++ [CLUSTER_SELECT sel (selected v)]) ∧
  set_selected sel (final (set_selected sel v)) =
    Ok () (final (set_selected sel v)).
Proof.
  destruct (decide (sel = selected v)) as [->|Hne].
  - rewrite set_selected_same. cbn [final].
    rewrite bool_decide_eq_true_2 by done. by rewrite set_selected_same.
  - rewrite set_selected_changed by done. cbn [final]. run.
    rewrite bool_decide_eq_false_2 by done. split; [done|]. split; [done|].
    unfold set_selected. run. by rewrite bool_decide_eq_false_2 by (by intros []).
Qed.

(** ** Deleting and undoing *)

Lemma _delete_accepted v a0 d0 (to_delete : gset Z) action :
  last (stack v) = Some (a0, d0) →
  to_delete ≠ ∅ →
  _delete make_color_map to_delete action v =
  _enstack make_color_map
    ((action +:+ " node") +:+
     (if bool_decide (1 < size to_delete)%nat then "s" else ""))
    (foldl delete_node d0 (elements to_delete)) v.
Proof.
  intros Hl Hne. unfold _delete.
  rewrite bool_decide_eq_false_2
    by (intros Hz; apply Hne, leibniz_equiv, size_empty_iff, Hz).
  run. by rewrite (dataset_top _ a0 d0) by exact Hl.
Qed.

(** X9. An accepted [delete_unselected] followed by [_undo] returns
    normally and restores the stack; the undo recognises the entry by its
    action name and selects the labels of the dataset it has just popped,
    that is, of the dataset the deletion had produced. *)
Theorem delete_unselected_then_undo v a0 d0 :
  last (stack v) = Some (a0, d0) →
  list_to_set (labels d0) ∖ selected v ≠ ∅ →
  let kept :=
    foldl delete_node d0 (elements (list_to_set (labels d0) ∖ selected v)) in
  let r := _undo make_color_map (final (delete_unselected make_color_map v)) in
  returned r = true ∧
  stack (final r) = stack v ∧
  selected (final r) = list_to_set (labels kept) ∧
  last (emitted (final r)) =
    Some (CLUSTER_SELECT (list_to_set (labels kept)) ∅).
Proof.
  intros Hl Hne kept.
  set (to_delete := list_to_set (labels d0) ∖ selected v) in *.
  set (name := ("delete unselected" +:+ " node") +:+
               (if bool_decide (1 < size to_delete)%nat then "s" else "")).
  assert (str_contains "delete unselected" name = true) as Hname.
  { unfold name. by destruct (bool_decide (1 < size to_delete)%nat). }
  assert (delete_unselected make_color_map v =
          Ok () (log_signal (CLUSTER_SELECT ∅ (selected v))
                   (final (_enstack make_color_map name kept
                             (set_selected_field ∅ v))))) as Hdel.
  { unfold delete_unselected. run.
    rewrite (dataset_top _ a0 d0) by exact Hl. run. fold to_delete.
    rewrite (_delete_accepted _ a0 d0) by done.
    fold name. fold kept.
    rewrite (_enstack_state _ a0 d0) by exact Hl. by run. }
  rewrite Hdel. cbn [final].
  rewrite (_enstack_state _ a0 d0) by exact Hl. cbn [final].
  cbn zeta.
  erewrite (_undo_state _ (stack v) name kept a0 d0); [|by run|exact Hl].
  cbn zeta. rewrite Hname. cbn [returned final]. run.
  split; [done|]. split; [done|]. split; [done|].
  rewrite <- !(assoc_L (++)). by rewrite !last_app.
Qed.

(** X10. An accepted [delete] followed by [_undo] returns normally and
    restores the stack; the action name of a plain delete is not taken for a
    delete-unselected one, so the selection becomes the restored dataset's
    labels intersected with the changed labels between the restored and the
    popped dataset. *)
Theorem delete_then_undo v a0 d0 :
  last (stack v) = Some (a0, d0) →
  selected v ≠ ∅ →
  let popped := foldl delete_node d0 (elements (selected v)) in
  let r := _undo make_color_map (final (delete make_color_map v)) in
  returned r = true ∧
  stack (final r) = stack v ∧
  selected (final r) =
    list_to_set (labels d0) ∩ get_changed_labels d0 popped.
Proof.
  intros Hl Hne popped.
  set (name := ("delete" +:+ " node") +:+
               (if bool_decide (1 < size (selected v))%nat then "s" else "")).
  assert (str_contains "delete unselected" name = false) as Hname.
  { unfold name. by destruct (bool_decide (1 < size (selected v))%nat). }
  assert (delete make_color_map v =
          Ok () (set_selected_field ∅
                   (final (_enstack make_color_map name popped v)))) as Hdel.
  { unfold delete. run. rewrite (_delete_accepted _ a0 d0) by done.
    fold name. fold popped.
    rewrite (_enstack_state _ a0 d0) by exact Hl. by run. }
  rewrite Hdel. cbn [final].
  rewrite (_enstack_state _ a0 d0) by exact Hl. cbn [final].
  cbn zeta.
  erewrite (_undo_state _ (stack v) name popped a0 d0); [|by run|exact Hl].
  cbn zeta. rewrite Hname. cbn [returned final]. by run.
Qed.

(** ** The history menu *)

(** X11. When the history menu mirrors the stack, triggering its n-th
    entry (counted from the top) pushes a "restored previous state" entry
    holding the dataset of the n-th most recent stack entry: nothing is
    removed from the stack, and selection and highlight stay as they are. *)
Theorem history_action_pushes v n act d :
  history_menu v = menu_of (stack v) →
  (n < length (stack v))%nat →
  stack v !! (length (stack v) - Datatypes.S n)%nat = Some (act, d) →
  let r := trigger make_color_map (history_action n) v in
  returned r = true ∧
  stack (final r) = stack v ++ [("restored previous state", d)] ∧
  selected (final r) = selected v ∧
  highlighted (final r) = highlighted v.
Proof.
  intros Hmenu Hn Hlook.
  assert (history_menu v !! n = Some (act, len d, d)) as Hentry.
  { rewrite Hmenu. unfold menu_of.
    by rewrite list_lookup_fmap, reverse_lookup, Hlook. }
  destruct (last (stack v)) as [[a0 d0]|] eqn:Hl.
  2:{ apply last_None in Hl. rewrite Hl in Hn. cbn in Hn. lia. }
  cbn [trigger]. run. rewrite Hentry. unfold restore.
  rewrite (_enstack_state _ a0 d0) by exact Hl. cbn [returned final]. by run.
Qed.

End ViewerInvariants.

(** * Properties of the timeseries view *)

Section TimeseriesFacts.

Context {D : Type} `{ClusterDataset D}.
Context {Color : Type}.

Implicit Types (v : SussViewer (D := D) (Color := Color)).
Implicit Types (p : TimeseriesPlot (Color := Color)).
Implicit Types (sc : Scatter (Color := Color)).

Lemma on_cluster_select_lookup (sel : gset Z) p (label : Z) :
  scatters (on_cluster_select_body sel p) !! label =
  fmap (M := list) (set_visible (bool_decide (label ∈ sel))) <$>
    scatters p !! label.
Proof.
  unfold on_cluster_select_body. cbn [scatters].
  rewrite map_lookup_imap. by destruct (scatters p !! label).
Qed.

Lemma py_call_highlight v (new old t : pyval (D := D)) p :
  py_call (on_cluster_highlight v) [new; old; t] p =
  on_cluster_highlight_body v new old p.
Proof. reflexivity. Qed.

Lemma select_delivery_sets_visibility_aux (new old : gset Z) p :
  deliver on_cluster_select (CLUSTER_SELECT (D := D) new old) p =
  Ok () (on_cluster_select_body new p).
Proof. reflexivity. Qed.

(** X12. Every [CLUSTER_SELECT] signal is delivered to
    [TimeseriesPlot.on_cluster_select]: the handler returns normally, and
    afterwards each scatter of each label is visible exactly when the label
    is in the new selection, with its colours untouched. *)
Theorem select_delivery_sets_visibility (new old : gset Z) p :
  deliver on_cluster_select (CLUSTER_SELECT (D := D) new old) p =
    Ok () (on_cluster_select_body new p) ∧
  ∀ label : Z,
    scatters (on_cluster_select_body new p) !! label =
    fmap (M := list)
      (λ sc, mkScatter (facecolor sc) (edgecolor sc) (bool_decide (label ∈ new)))
      <$> scatters p !! label.
Proof.
  split; [reflexivity|]. intros label. apply on_cluster_select_lookup.
Qed.

(** X13. Highlighting a label and then taking the highlight away again
    brings the view back to where it was, provided the label's scatters were
    at rest before (painted in the label's colour and shown exactly when the
    label is selected); in between they are white with a coloured edge and
    visible. *)
Theorem highlight_round_trip v p (n : Z) (c : Color)
    (scs : list Scatter) (t t' : pyval (D := D)) :
  scatters p !! n = Some scs →
  colors v !! n = Some c →
  Forall (λ sc, sc = mkScatter (Mapped c) (Mapped c)
                       (bool_decide (n ∈ selected v))) scs →
  let r1 := py_call (on_cluster_highlight v) [PyInt n; PyNone; t] p in
  let r2 := py_call (on_cluster_highlight v) [PyNone; PyInt n; t'] (final r1) in
  returned r1 = true ∧
  scatters (final r1) !! n =
    Some ((λ _, mkScatter White (Mapped c) true) <$> scs) ∧
  returned r2 = true ∧
  final r2 = p.
Proof.
  intros Hn Hc Hrest.
  assert (py_call (on_cluster_highlight v) [PyInt n; PyNone; t] p =
          Ok () (mkPlot (<[n := (λ _, mkScatter White (Mapped c) true) <$> scs]>
                           (scatters p)))) as Hr1.
  { rewrite py_call_highlight. unfold on_cluster_highlight_body.
    rewrite Hn, Hc. cbn [default]. by destruct scs. }
  cbn zeta. rewrite Hr1. cbn [returned final scatters].
  rewrite lookup_insert_eq. split; [done|]. split; [done|].
  rewrite py_call_highlight. unfold on_cluster_highlight_body. cbn [scatters].
  rewrite lookup_insert_eq, Hc. cbn [returned final]. split; [done|].
  rewrite insert_insert_eq. destruct p as [m]. cbn [scatters] in *. f_equal.
  apply insert_id. rewrite Hn. f_equal. rewrite <- list_fmap_compose.
  clear Hn Hr1. induction Hrest as [|sc scs' -> _ IH]; [done|].
  cbn. f_equal. exact IH.
Qed.

(** X14. Highlighting a label the view has no entry for returns normally,
    whether or not the label has a colour, and leaves an empty entry for
    that label behind: indexing the [defaultdict] creates it. *)
Theorem highlight_unknown_label v p (n : Z) (old t : pyval (D := D)) :
  scatters p !! n = None →
  let r := py_call (on_cluster_highlight v) [PyInt n; old; t] p in
  returned r = true ∧ scatters (final r) !! n = Some [].
Proof.
  intros Hn. cbn zeta. rewrite py_call_highlight.
  unfold on_cluster_highlight_body.
  set (p1 := match old with PyInt o => _ | _ => p end).
  assert (scatters p1 !! n = None) as Hn1.
  { subst p1. destruct old as [|o| |]; try done.
    destruct (scatters p !! o) eqn:Ho; [|done].
    destruct (colors v !! o); [|done]. cbn [scatters].
    rewrite lookup_insert_ne; [done|]. intros ->. congruence. }
  rewrite Hn1. cbn [default returned final scatters].
  by rewrite lookup_insert_eq.
Qed.

(** X15. Neither handler ever drops a label's entry from [scatters]:
    whatever the arguments and whether the call returns or raises, every
    label present before is present afterwards; the selection handler keeps
    the set of labels exactly. *)
Theorem handlers_keep_labels v p (args : list (pyval (D := D))) :
  dom (scatters p) ⊆ dom (scatters (final (py_call (on_cluster_highlight v) args p))) ∧
  dom (scatters (final (py_call on_cluster_select args p))) = dom (scatters p).
Proof.
  split.
  - unfold py_call. case_bool_decide as Hlen; [|done].
    destruct args as [|new [|old [|t [|]]]]; try done.
    cbn [body on_cluster_highlight]. unfold on_cluster_highlight_body.
    set (p1 := match old with PyInt o => _ | _ => p end).
    assert (dom (scatters p) ⊆ dom (scatters p1)) as Hp1.
    { subst p1. destruct old as [|o| |]; try done.
      destruct (scatters p !! o); [|done]. destruct (colors v !! o); [|done].
      cbn [scatters]. rewrite dom_insert_L. apply union_subseteq_r. }
    destruct new as [|n| |]; try done.
    destruct (default [] (scatters p1 !! n)) as [|sc rest];
      [|destruct (colors v !! n)]; cbn [final scatters];
      rewrite dom_insert_L; etrans; try exact Hp1; apply union_subseteq_r.
  - unfold py_call. case_bool_decide as Hlen; [|done].
    destruct args as [|new [|old [|]]]; try done. cbn.
    destruct new as [| |sel|]; try done. destruct old as [| |old|]; try done.
    cbn [final]. apply set_eq. intros label.
    rewrite !elem_of_dom, on_cluster_select_lookup.
    by rewrite fmap_is_Some.
Qed.

(** X16. A selection update after a highlight hides the highlighted label
    again when it is not selected: its scatters stay white with a coloured
    edge but are no longer visible. *)
Theorem highlight_then_select_hides v p (n : Z) (c : Color)
    (scs : list Scatter) (t : pyval (D := D)) (sel old_sel : gset Z) :
  scatters p !! n = Some scs →
  colors v !! n = Some c →
  n ∉ sel →
  let r1 := py_call (on_cluster_highlight v) [PyInt n; PyNone; t] p in
  let r2 := deliver on_cluster_select (CLUSTER_SELECT (D := D) sel old_sel)
              (final r1) in
  returned r2 = true ∧
  scatters (final r2) !! n =
    Some ((λ _, mkScatter White (Mapped c) false) <$> scs).
Proof.
  intros Hn Hc Hsel.
  assert (py_call (on_cluster_highlight v) [PyInt n; PyNone; t] p =
          Ok () (mkPlot (<[n := (λ _, mkScatter White (Mapped c) true) <$> scs]>
                           (scatters p)))) as Hr1.
  { rewrite py_call_highlight. unfold on_cluster_highlight_body.
    rewrite Hn, Hc. cbn [default]. by destruct scs. }
  cbn zeta. rewrite Hr1. cbn [final].
  rewrite select_delivery_sets_visibility_aux.
  cbn [returned final]. split; [done|].
  rewrite on_cluster_select_lookup. cbn [scatters].
  rewrite lookup_insert_eq. cbn. rewrite <- list_fmap_compose.
  rewrite bool_decide_eq_false_2 by done. f_equal.
Qed.

End TimeseriesFacts.

(** * Detail level and subsampling of the timeseries view *)

(** X17. Whatever index [set_detail_level] is given, the resulting flatten
    level is a key of [detail_level_scatter_size], so the lookup in
    [setup_data] cannot fail; the level chosen at start-up gives scatter size
    2 for datasets of at most 30000 events, else 4 when the level-1 view has
    at most 500 entries, else 3. *)
Theorem scatter_size_always_defined (index count len_flatten_1 : Z) :
  is_Some (scatter_size (set_detail_level index)) ∧
  scatter_size (setup_detail_level_selector count len_flatten_1).1 =
    Some (if bool_decide (count ≤ 30000) then 2
          else if bool_decide (len_flatten_1 ≤ 500) then 4 else 3).
Proof.
  split.
  - unfold set_detail_level, itemData. case_bool_decide; [|by eexists].
    destruct (Z.to_nat index) as [|[|[|k]]]; by eexists.
  - unfold setup_detail_level_selector. by repeat case_bool_decide.
Qed.

Lemma slice_indices_S (n skip : nat) :
  slice_indices (Datatypes.S n) skip =
  slice_indices n skip ++ (if decide (n mod skip = 0)%nat then [n] else []).
Proof.
  unfold slice_indices. rewrite seq_S, filter_app. reflexivity.
Qed.

(** A slice with step [skip] over [n] positions selects the ceiling of
    [n / skip] of them. *)
Lemma slice_indices_length (n skip : nat) :
  (0 < skip)%nat →
  (n ≤ length (slice_indices n skip) * skip)%nat ∧
  (length (slice_indices n skip) * skip < n + skip)%nat.
Proof.
  intros Hskip. induction n as [|n [IH1 IH2]]; [cbn; lia|].
  rewrite slice_indices_S, length_app.
  destruct (decide (n mod skip = 0)%nat) as [He|Hne]; cbn [length].
  - apply Nat.Div0.div_exact in He.
    assert (length (slice_indices n skip) = n / skip)%nat as Hc; [nia|].
    rewrite Hc. nia.
  - rewrite Nat.add_0_r. split; [|lia].
    assert (n ≠ length (slice_indices n skip) * skip)%nat; [|lia].
    intros Heq. apply Hne. rewrite Heq. apply Nat.Div0.mod_mul.
Qed.

(** X18. The subsampling of [setup_data] keeps fewer than twice
    [max_points] points, and it drops nothing at all unless there are at
    least twice [max_points] of them: [max_points] is not a cap. *)
Theorem subsample_keeps_fewer_than_twice_max_points (n : nat) :
  (length (slice_indices n (subsample_skip n)) < 2 * max_points)%nat ∧
  (length (slice_indices n (subsample_skip n)) = n ∨ 2 * max_points ≤ n)%nat.
Proof.
  assert (0 < max_points)%nat as Hm by (unfold max_points; lia).
  unfold subsample_skip. generalize dependent max_points. intros m Hm.
  pose proof (Nat.Div0.mul_div_le n m) as Hlo.
  pose proof (Nat.mul_succ_div_gt n m ltac:(lia)) as Hhi.
  set (q := (n / m)%nat) in *.
  destruct (slice_indices_length n (Nat.max 1 q) ltac:(lia)) as [H1 H2].
  set (c := length (slice_indices n (Nat.max 1 q))) in *.
  destruct (decide (q ≤ 1)%nat) as [Hq|Hq].
  - rewrite Nat.max_l in * by lia. split; [nia|]. left. lia.
  - rewrite Nat.max_r in * by lia. split; [nia|]. right. nia.
Qed.

(** * The further properties on concrete viewers *)

Lemma undo_times_stack_witness :
  stack viewer_merged ≠ [] ∧
  stack (final (undo_times label_colors 3 viewer_merged)) = [("load", d123)].
Proof.
  assert (stack viewer_merged ≠ []) as Hne by done.
  destruct (undo_times_stack label_colors 3 viewer_merged Hne) as [_ Hst].
  split; [exact Hne|]. rewrite Hst. reflexivity.
Defined.

Lemma reset_leaves_timer_stopped_witness :
  stack viewer_merged = ("load", d123) :: [("merge", mkFlat [3; 4])] ∧
  timer_active viewer_merged = true ∧
  timer_active (final (reset label_colors viewer_merged)) = false ∧
  history_menu (final (reset label_colors viewer_merged)) =
    [("load", 3%nat, d123)].
Proof.
  assert (stack viewer_merged = ("load", d123) :: [("merge", mkFlat [3; 4])])
    as Hs by reflexivity.
  destruct (reset_leaves_timer_stopped label_colors _ _ _ _ Hs)
    as (Htimer & Hmenu & _).
  split; [exact Hs|]. split; [reflexivity|]. split; [exact Htimer|exact Hmenu].
Defined.

Lemma toggle_selected_on_off_witness :
  (2 ∉ selected (viewer123 {[1]} None)) ∧
  selected (final (toggle_selected 2 false
                     (final (toggle_selected 2 true (viewer123 {[1]} None))))) =
    {[1]}.
Proof.
  assert (2 ∉ selected (viewer123 {[1]} None)) as Hnin
    by (apply (bool_decide_unpack _); vm_compute; exact I).
  destruct (toggle_selected_on_off (viewer123 {[1]} None) 2 Hnin) as [Hsel _].
  split; [exact Hnin|exact Hsel].
Defined.

Lemma delete_unselected_then_undo_witness :
  last (stack (viewer123 {[2]} None)) = Some ("load", d123) ∧
  list_to_set (labels d123) ∖ selected (viewer123 {[2]} None) ≠ ∅ ∧
  stack (final (_undo label_colors
                  (final (delete_unselected label_colors
                            (viewer123 {[2]} None))))) = [("load", d123)] ∧
  selected (final (_undo label_colors
                     (final (delete_unselected label_colors
                               (viewer123 {[2]} None))))) = {[2]}.
Proof.
  assert (Hl : last (stack (viewer123 {[2]} None)) = Some ("load", d123))
    by reflexivity.
  assert (Hne : list_to_set (labels d123) ∖ selected (viewer123 {[2]} None)
                ≠ (∅ : gset Z))
    by (apply gset_neq_by_evaluation; vm_compute; reflexivity).
  destruct (delete_unselected_then_undo label_colors _ _ _ Hl Hne)
    as (_ & Hst & Hsel & _).
  split; [exact Hl|]. split; [exact Hne|]. split; [exact Hst|].
  rewrite Hsel. vm_compute. reflexivity.
Defined.

Lemma delete_then_undo_witness :
  last (stack (viewer123 {[2]} None)) = Some ("load", d123) ∧
  selected (viewer123 {[2]} None) ≠ ∅ ∧
  stack (final (_undo label_colors
                  (final (delete label_colors (viewer123 {[2]} None))))) =
    [("load", d123)] ∧
  selected (final (_undo label_colors
                     (final (delete label_colors (viewer123 {[2]} None))))) =
    {[2]}.
Proof.
  assert (Hl : last (stack (viewer123 {[2]} None)) = Some ("load", d123))
    by reflexivity.
  assert (Hne : selected (viewer123 {[2]} None) ≠ (∅ : gset Z))
    by (apply gset_neq_by_evaluation; vm_compute; reflexivity).
  destruct (delete_then_undo label_colors _ _ _ Hl Hne) as (_ & Hst & Hsel).
  split; [exact Hl|]. split; [exact Hne|]. split; [exact Hst|].
  rewrite Hsel. vm_compute. reflexivity.
Defined.

Lemma history_action_pushes_witness :
  history_menu (final (merge label_colors viewer_sel12)) =
    menu_of (stack (final (merge label_colors viewer_sel12))) ∧
  (1 < length (stack (final (merge label_colors viewer_sel12))))%nat ∧
  stack (final (merge label_colors viewer_sel12)) !! 0%nat =
    Some ("load", d123) ∧
  stack (final (trigger label_colors (history_action 1)
                  (final (merge label_colors viewer_sel12)))) =
    [("load", d123); ("merge", mkFlat [3; 4]);
     ("restored previous state", d123)].
Proof.
  assert (history_menu (final (merge label_colors viewer_sel12)) =
          menu_of (stack (final (merge label_colors viewer_sel12)))) as Hmenu
    by reflexivity.
  assert (1 < length (stack (final (merge label_colors viewer_sel12))))%nat
    as Hn by (vm_compute; lia).
  assert (stack (final (merge label_colors viewer_sel12)) !!
            (length (stack (final (merge label_colors viewer_sel12))) - 2)%nat =
          Some ("load", d123)) as Hlook by reflexivity.
  destruct (history_action_pushes label_colors _ 1%nat _ _ Hmenu Hn Hlook)
    as (_ & Hst & _).
  split; [exact Hmenu|]. split; [exact Hn|]. split; [reflexivity|].
  rewrite Hst. reflexivity.
Defined.

Lemma highlight_round_trip_witness :
  scatters plot123 !! 2 = Some [mkScatter (Mapped 2) (Mapped 2) false] ∧
  colors (viewer123 ∅ None) !! 2 = Some 2 ∧
  final (py_call (on_cluster_highlight (viewer123 ∅ None))
           [PyNone; PyInt 2; PyNone]
           (final (py_call (on_cluster_highlight (viewer123 ∅ None))
                     [PyInt 2; PyNone; PyNone] plot123))) = plot123.
Proof.
  assert (scatters plot123 !! 2 = Some [mkScatter (Mapped 2) (Mapped 2) false])
    as Hn by reflexivity.
  assert (colors (viewer123 ∅ None) !! 2 = Some 2) as Hc by reflexivity.
  assert (Forall (λ sc, sc = mkScatter (Mapped 2) (Mapped 2)
                               (bool_decide (2 ∈ selected (viewer123 ∅ None))))
                 [mkScatter (Mapped 2) (Mapped 2) false]) as Hrest
    by (constructor; [reflexivity|constructor]).
  destruct (highlight_round_trip (viewer123 ∅ None) plot123 2 2 _
              PyNone PyNone Hn Hc Hrest) as (_ & _ & _ & Hback).
  split; [exact Hn|]. split; [exact Hc|exact Hback].
Defined.

Lemma highlight_unknown_label_witness :
  scatters plot123 !! 7 = None ∧
  returned (py_call (on_cluster_highlight (viewer123 ∅ None))
              [PyInt 7; PyNone; PyNone] plot123) = true ∧
  scatters (final (py_call (on_cluster_highlight (viewer123 ∅ None))
                     [PyInt 7; PyNone; PyNone] plot123)) !! 7 = Some [].
Proof.
  assert (scatters plot123 !! 7 = None) as Hn by reflexivity.
  destruct (highlight_unknown_label (viewer123 ∅ None) plot123 7
              PyNone PyNone Hn) as [Hret Hlook].
  split; [exact Hn|]. split; [exact Hret|exact Hlook].
Defined.

Lemma highlight_then_select_hides_witness :
  scatters plot123 !! 2 = Some [mkScatter (Mapped 2) (Mapped 2) false] ∧
  colors (viewer123 ∅ None) !! 2 = Some 2 ∧
  (2 ∉ ({[1]} : gset Z)) ∧
  scatters (final (deliver on_cluster_select
                     (CLUSTER_SELECT (D := FlatDataset) {[1]} ∅)
                     (final (py_call (on_cluster_highlight (viewer123 ∅ None))
                               [PyInt 2; PyNone; PyNone] plot123)))) !! 2 =
    Some [mkScatter White (Mapped 2) false].
Proof.
  assert (scatters plot123 !! 2 = Some [mkScatter (Mapped 2) (Mapped 2) false])
    as Hn by reflexivity.
  assert (colors (viewer123 ∅ None) !! 2 = Some 2) as Hc by reflexivity.
  assert (2 ∉ ({[1]} : gset Z)) as Hsel
    by (apply (bool_decide_unpack _); vm_compute; exact I).
  destruct (highlight_then_select_hides (viewer123 ∅ None) plot123 2 2 _
              PyNone {[1]} ∅ Hn Hc Hsel) as [_ Hlook].
  split; [exact Hn|]. split; [exact Hc|]. split; [exact Hsel|exact Hlook].
Defined.
